(** * Payment routes: validation middleware, route handlers and Stripe webhook

    A shallow embedding of [middleware/validatePayment.js] and of the payment
    router (create-payment-intent, create-paypal-order, capture-paypal-payment,
    create-google-pay-payment, webhook).

    Request bodies come from the client and are kept as untyped JavaScript
    values; objects returned by the vendor SDKs (payment intents, PayPal
    results, verified webhook events) are records with the fields the code
    reads.  The SDKs, express-validator, the order controller, the
    authentication middleware and the JavaScript runtime primitives on numbers
    are not part of the repository: they are parameters of the development. *)

From Stdlib Require Import Ascii String List Bool ZArith QArith Lia DecimalString.
Import ListNotations.
Open Scope string_scope.

Set Implicit Arguments.
Set Warnings "-register-all".

(** ** JavaScript values *)

(** A JavaScript number: every finite double is a rational. *)
Inductive number : Type :=
| NaN
| Infinity (negative : bool)
| Finite (q : Q).

Inductive value : Type :=
| VUndefined
| VNull
| VBool (b : bool)
| VNum (n : number)
| VStr (s : string)
| VArr (items : list value)
| VObj (props : list (string * value)).

(** A thrown [Error]: the handlers read [error.message] and [error.code]. *)
Record js_error : Type := mkError { message : string; code : value }.

Definition TypeError (msg : string) : js_error := mkError msg VUndefined.
Definition Error (msg : string) : js_error := mkError msg VUndefined.

(** Outcome of evaluating an expression or statement list. *)
Inductive completion (A : Type) : Type :=
| Normal (a : A)
| Throw (e : js_error).
Arguments Normal {A} a.
Arguments Throw {A} e.

Definition is_nullish (v : value) : bool :=
  match v with
  | VUndefined | VNull => true
  | _ => false
  end.

Fixpoint lookup (k : string) (props : list (string * value)) : option value :=
  match props with
  | [] => None
  | (k', v) :: rest => if String.eqb k k' then Some v else lookup k rest
  end.

Definition has_key (k : string) (props : list (string * value)) : bool :=
  match lookup k props with Some _ => true | None => false end.

(** [o.k] on a value that is not nullish: own property of an object,
    [undefined] otherwise (none of the keys the code reads is inherited). *)
Definition get_field (v : value) (k : string) : value :=
  match v with
  | VObj props => match lookup k props with Some x => x | None => VUndefined end
  | _ => VUndefined
  end.

(** How a TypeError names the nullish value it met. *)
Definition nullish_word (v : value) : string :=
  match v with
  | VNull => "null"
  | _ => "undefined"
  end.

(** [const { k } = v]: a [TypeError] when [v] is [undefined] or [null]. *)
Definition destructure (v : value) (k : string) : completion value :=
  if is_nullish v
  then Throw (TypeError ("Cannot destructure property '" ++ k
                           ++ "' of 'req.body' as it is " ++ nullish_word v ++ "."))
  else Normal (get_field v k).

(** [v === 'lit'] for a string literal. *)
Definition strict_eq_str (v : value) (lit : string) : bool :=
  match v with
  | VStr s => String.eqb s lit
  | _ => false
  end.

(** The primitives of the runtime on doubles. *)
Record js_runtime : Type := mkRuntime {
  number_to_string : number -> string;   (* Number::toString *)
  string_to_number : string -> number    (* StringToNumber *)
}.

Section Coercions.
Variable rt : js_runtime.

(** ToString on a value parsed from JSON.  An object with an own
    [toString] property (never callable in JSON) has no primitive form. *)
Fixpoint to_string (v : value) : completion string :=
  match v with
  | VUndefined => Normal "undefined"
  | VNull => Normal "null"
  | VBool true => Normal "true"
  | VBool false => Normal "false"
  | VNum n => Normal (number_to_string rt n)
  | VStr s => Normal s
  | VArr items =>
      (fix join (l : list value) : completion string :=
         match l with
         | [] => Normal ""
         | x :: rest =>
             match (if is_nullish x then Normal "" else to_string x) with
             | Throw e => Throw e
             | Normal sx =>
                 match rest with
                 | [] => Normal sx
                 | _ => match join rest with
                        | Throw e => Throw e
                        | Normal sr => Normal (sx ++ "," ++ sr)
                        end
                 end
             end
         end) items
  | VObj props =>
      if has_key "toString" props
      then Throw (TypeError "Cannot convert object to primitive value")
      else Normal "[object Object]"
  end.

(** [amount.toString()]: the receiver must not be nullish, and an own
    [toString] property of an object parsed from JSON is not a function. *)
Definition call_toString (v : value) : completion string :=
  if is_nullish v
  then Throw (TypeError ("Cannot read properties of " ++ nullish_word v
                           ++ " (reading 'toString')"))
  else match v with
       | VObj props =>
           if has_key "toString" props
           then Throw (TypeError "amount.toString is not a function")
           else to_string v
       | _ => to_string v
       end.

(** ToNumber *)
Definition to_number (v : value) : completion number :=
  match v with
  | VUndefined => Normal NaN
  | VNull => Normal (Finite 0)
  | VBool true => Normal (Finite 1)
  | VBool false => Normal (Finite 0)
  | VNum n => Normal n
  | VStr s => Normal (string_to_number rt s)
  | VArr _ | VObj _ =>
      match to_string v with
      | Throw e => Throw e
      | Normal s => Normal (string_to_number rt s)
      end
  end.

(** IsLessThan on numbers: [None] is the undefined result (a NaN operand). *)
Definition num_lt (a b : number) : option bool :=
  match a, b with
  | NaN, _ | _, NaN => None
  | Infinity true, Infinity true => Some false
  | Infinity true, _ => Some true
  | _, Infinity true => Some false
  | Infinity false, _ => Some false
  | _, Infinity false => Some true
  | Finite x, Finite y => Some (negb (Qle_bool y x))
  end.

(** [v <= k] with [k] a number literal. *)
Definition js_le (v : value) (k : number) : completion bool :=
  match to_number v with
  | Throw e => Throw e
  | Normal n => Normal (match num_lt k n with Some false => true | _ => false end)
  end.

(** [v > k] with [k] a number literal. *)
Definition js_gt (v : value) (k : number) : completion bool :=
  match to_number v with
  | Throw e => Throw e
  | Normal n => Normal (match num_lt k n with Some true => true | _ => false end)
  end.

(** Template literal substitution [`${v}`] of an environment variable. *)
Definition template (v : value) : string :=
  match v with
  | VStr s => s
  | _ => "undefined"
  end.
End Coercions.

(** ** Requests, responses and vendor objects *)

(** What the handlers read of an Express request. *)
Record request : Type := mkRequest {
  req_body : value;                       (* req.body *)
  req_headers : list (string * value);    (* req.headers *)
  req_secure : bool;                      (* req.secure *)
  req_user : value                        (* req.user, set by protectRoute *)
}.

Definition header (req : request) (name : string) : value :=
  get_field (VObj (req_headers req)) name.

(** [res.status(n).json(b)] and [res.status(n).send(text)]; [res.json(b)]
    alone has status 200. *)
Inductive response : Type :=
| Json (status : Z) (body : value)
| Send (status : Z) (text : string).

Definition status_of (r : response) : Z :=
  match r with
  | Json st _ => st
  | Send st _ => st
  end.

(** The status of the answer, when the handler returned one. *)
Definition status_of_completion (c : completion response) : option Z :=
  match c with
  | Normal r => Some (status_of r)
  | Throw _ => None
  end.

(** [process.env] *)
Record process_env : Type := mkEnv {
  NODE_ENV : value;
  FRONTEND_URL : value;
  STRIPE_WEBHOOK_SECRET : value
}.

(** A Stripe PaymentIntent, with the fields the router reads. *)
Record payment_intent : Type := mkIntent {
  pi_id : string;
  pi_client_secret : value;
  pi_metadata : list (string * value);
  pi_last_payment_error : value
}.

Record payment_method : Type := mkPaymentMethod { pm_id : string }.

(** A verified Stripe event: [event.type] and [event.data.object]. *)
Record event : Type := mkEvent {
  ev_type : string;
  ev_object : payment_intent
}.

(** [response.result] of a PayPal order call. *)
Record paypal_result : Type := mkPaypalResult {
  result_id : string;
  result_status : string
}.

(** Argument of [stripe.paymentIntents.create]. *)
Record intent_params : Type := mkIntentParams {
  ip_amount : value;
  ip_currency : value;
  ip_payment_method : value;
  ip_confirm : bool;
  ip_return_url : string
}.

(** Argument of [stripe.paymentMethods.create]: type and card token. *)
Record method_params : Type := mkMethodParams {
  mp_type : string;
  mp_card_token : value
}.

Record purchase_unit : Type := mkPurchaseUnit {
  currency_code : value;
  amount_value : string
}.

(** A PayPal [OrdersCreateRequest] after [prefer] and [requestBody]. *)
Record orders_create_request : Type := mkOrdersCreate {
  prefer : string;
  intent : string;
  purchase_units : list purchase_unit
}.

(** Argument of the order controller's [createOrder]. *)
Record order : Type := mkOrder {
  userId : value;
  paymentId : value;
  paymentMethod : string;
  order_status : string
}.

(** ** Validation rules (express-validator chains) *)

Inductive chain_step : Type :=
| isNumeric
| isString
| isLength (min max : nat)
| notEmpty
| isObject
| withMessage (msg : string).

(** [body(field).step1().step2()...] *)
Record validation_chain : Type := body {
  field : string;
  steps : list chain_step
}.

Definition stripePaymentRules : list validation_chain :=
  [ body "amount" [isNumeric; withMessage "Amount must be a number"];
    body "currency" [isString; isLength 3 3; withMessage "Invalid currency code"];
    body "paymentMethodId" [isString; notEmpty; withMessage "Payment method ID is required"] ].

Definition paypalPaymentRules : list validation_chain :=
  [ body "amount" [isNumeric; withMessage "Amount must be a number"];
    body "currency" [isString; isLength 3 3; withMessage "Invalid currency code"] ].

Definition googlePayPaymentRules : list validation_chain :=
  [ body "amount" [isNumeric; withMessage "Amount must be a number"];
    body "currency" [isString; isLength 3 3; withMessage "Invalid currency code"];
    body "paymentData" [isObject; withMessage "Invalid payment data"];
    body "paymentData.token" [isString; notEmpty; withMessage "Payment token is required"] ].

(** ** Observable effects *)

Inductive entry : Type :=
| Ran_validation (c : validation_chain)                       (* validation.run(req) *)
| Called_paymentIntents_create (p : intent_params)            (* stripe.paymentIntents.create *)
| Called_paymentMethods_create (p : method_params)            (* stripe.paymentMethods.create *)
| Called_orders_create (r : orders_create_request)            (* paypalClient.execute(OrdersCreateRequest) *)
| Called_orders_capture (orderId : value)                     (* paypalClient.execute(OrdersCaptureRequest) *)
| Called_createOrder (o : order)                              (* createOrder *)
| Logged_error (label : string) (e : js_error)                (* logger.error(label, error) *)
| Logged_error_data (label : string) (data : value)           (* logger.error(label, {...}) *)
| Logged_info (msg : string).                                 (* logger.info(msg) *)

(** The orders handed to [createOrder], oldest first. *)
Fixpoint created_orders (tr : list entry) : list order :=
  match tr with
  | [] => []
  | Called_createOrder o :: rest => o :: created_orders rest
  | _ :: rest => created_orders rest
  end.

Definition is_vendor_call (e : entry) : bool :=
  match e with
  | Called_paymentIntents_create _ | Called_paymentMethods_create _
  | Called_orders_create _ | Called_orders_capture _ => true
  | _ => false
  end.

(** The calls made to the Stripe and PayPal clients, oldest first. *)
Definition vendor_calls (tr : list entry) : list entry := filter is_vendor_call tr.

Definition is_validation_run (e : entry) : bool :=
  match e with
  | Ran_validation _ => true
  | _ => false
  end.

Definition validation_runs (tr : list entry) : list entry := filter is_validation_run tr.

(** What a middleware does with a request: answer it, or call [next()]. *)
Inductive outcome : Type :=
| Responded (r : response)
| Next (req : request).

(** ** The collaborators of the two source files

    express-validator and the Stripe and PayPal clients are third-party
    libraries; [createOrder] (controllers/orderController) and [protectRoute]
    (middleware/auth) are modules of the application that the router only
    calls.  All of them are parameters: nothing is assumed about what they
    return.  [W] is the state of everything outside the process (vendor
    accounts, the order store, the clock); every call may read and change
    it. *)
Record collaborators (W : Type) : Type := mkCollaborators {
  (* express-validator: the errors one chain reports on a request body *)
  validation_run : validation_chain -> value -> list value;
  (* stripe.webhooks.constructEvent(payload, signature, secret) *)
  constructEvent : value -> value -> value -> W -> completion event;
  paymentIntents_create : intent_params -> W -> completion payment_intent * W;
  paymentMethods_create : method_params -> W -> completion payment_method * W;
  orders_create : orders_create_request -> W -> completion paypal_result * W;
  (* new PayPal.orders.OrdersCaptureRequest(orderId): the error it throws
     while it builds the request from the order id, if it throws *)
  new_OrdersCaptureRequest : value -> option js_error;
  (* paypalClient.execute on the capture request built for that order id *)
  orders_capture : value -> W -> completion paypal_result * W;
  createOrder : order -> W -> completion unit * W;
  (* middleware/auth: respond itself, or pass the request on with req.user set *)
  protectRoute : request -> W -> outcome * W
}.

Record state (W : Type) : Type := mkState {
  world : W;
  trace : list entry
}.

(** ** A state and exception monad for handler bodies *)

Definition M (W A : Type) : Type := state W -> completion A * state W.

Definition ret {W A} (a : A) : M W A := fun s => (Normal a, s).

Definition bind {W A B} (m : M W A) (k : A -> M W B) : M W B :=
  fun s =>
    match m s with
    | (Normal a, s') => k a s'
    | (Throw e, s') => (Throw e, s')
    end.

Definition throw {W A} (e : js_error) : M W A := fun s => (Throw e, s).

(** [try { m } catch (error) { h error }] *)
Definition try_catch {W A} (m : M W A) (h : js_error -> M W A) : M W A :=
  fun s =>
    match m s with
    | (Normal a, s') => (Normal a, s')
    | (Throw e, s') => h e s'
    end.

Definition lift {W A} (c : completion A) : M W A := fun s => (c, s).

Definition emit {W} (e : entry) : M W unit :=
  fun s => (Normal tt, mkState (world s) (trace s ++ [e])).

(** A call to a collaborator: recorded, then answered by the outside world. *)
Definition call {W A} (e : entry) (f : W -> completion A * W) : M W A :=
  fun s =>
    let (r, w') := f (world s) in
    (r, mkState w' (trace s ++ [e])).

Declare Scope js_scope.
Delimit Scope js_scope with js.
Notation "x <- m ;; k" := (bind m (fun x => k))
  (at level 61, m at next level, right associativity) : js_scope.
Notation "m ;; k" := (bind m (fun _ => k))
  (at level 61, right associativity) : js_scope.
Open Scope js_scope.

(** [v.k]: a [TypeError] when [v] is [undefined] or [null]. *)
Definition read_prop (v : value) (k : string) : completion value :=
  if is_nullish v
  then Throw (TypeError ("Cannot read properties of " ++ nullish_word v
                           ++ " (reading '" ++ k ++ "')"))
  else Normal (get_field v k).

Definition error_body (fields : list (string * value)) : value :=
  VObj [("error", VObj fields)].

(** The middleware a route can mount, and the routes of the router. *)
Inductive middleware : Type :=
| use_protectRoute
| use_validatePayment
| use_express_raw.

Inductive route : Type :=
| post_create_payment_intent
| post_create_paypal_order
| post_capture_paypal_payment
| post_create_google_pay_payment
| post_webhook.

(** ** middleware/validatePayment.js and the router *)

Section Backend.
Context {W : Type}.
Variable rt : js_runtime.
Variable ext : collaborators W.
Variable env : process_env.

(** [await Promise.all(validationRules.map(validation => validation.run(req)))]
    followed by [validationResult(req).array()]. *)
Fixpoint run_rules (validationRules : list validation_chain) (req : request)
  : M W (list value) :=
  match validationRules with
  | [] => ret []
  | validation :: rest =>
      emit (Ran_validation validation) ;;
      errors <- run_rules rest req ;;
      ret (validation_run ext validation (req_body req) ++ errors)%list
  end.

(** The errors [validationResult(req)] holds after the rules ran. *)
Definition collect_errors (validationRules : list validation_chain) (b : value) : list value :=
  flat_map (fun validation => validation_run ext validation b) validationRules.

Definition isEmpty (errors : list value) : bool :=
  match errors with [] => true | _ => false end.

(** The [switch (method)]: [None] is the [default] branch. *)
Definition select_rules (method : value) : option (list validation_chain) :=
  if strict_eq_str method "card" then Some stripePaymentRules
  else if strict_eq_str method "paypal" then Some paypalPaymentRules
  else if strict_eq_str method "google_pay" then Some googlePayPaymentRules
  else None.

Definition validatePayment (req : request) : M W outcome :=
  try_catch
    (method <- lift (destructure (req_body req) "method") ;;
     match select_rules method with
     | None =>
         ret (Responded (Json 400 (error_body [("message", VStr "Invalid payment method")])))
     | Some validationRules =>
         errors <- run_rules validationRules req ;;
         if negb (isEmpty errors) then
           ret (Responded (Json 400 (error_body [("message", VStr "Validation error");
                                                 ("details", VArr errors)])))
         else
           amount <- lift (destructure (req_body req) "amount") ;;
           too_low <- lift (js_le rt amount (Finite 0)) ;;
           out_of_range <- (if too_low then ret true
                            else lift (js_gt rt amount (Finite (inject_Z 999999)))) ;;
           if out_of_range then
             ret (Responded (Json 400 (error_body
                    [("message", VStr "Invalid amount");
                     ("details", VStr "Amount must be between 0 and 999,999")])))
           else if negb (req_secure req) && strict_eq_str (NODE_ENV env) "production" then
             ret (Responded (Json 403 (error_body
                    [("message", VStr "Payment must be processed over HTTPS")])))
           else ret (Next req)
     end)
    (fun error =>
       emit (Logged_error "Payment validation error:" error) ;;
       ret (Responded (Json 500 (error_body [("message", VStr "Payment validation failed");
                                             ("details", VStr (message error))])))).

Definition return_url : string := template (FRONTEND_URL env) ++ "/payment/confirm".

(** POST /create-payment-intent *)
Definition create_payment_intent (req : request) : M W response :=
  try_catch
    (amount <- lift (destructure (req_body req) "amount") ;;
     currency <- lift (destructure (req_body req) "currency") ;;
     paymentMethodId <- lift (destructure (req_body req) "paymentMethodId") ;;
     let params := mkIntentParams amount currency paymentMethodId true return_url in
     paymentIntent <- call (Called_paymentIntents_create params)
                           (paymentIntents_create ext params) ;;
     ret (Json 200 (VObj [("clientSecret", pi_client_secret paymentIntent);
                          ("paymentIntentId", VStr (pi_id paymentIntent))])))
    (fun error =>
       emit (Logged_error "Stripe payment intent error:" error) ;;
       ret (Json 500 (error_body [("message", VStr (message error));
                                  ("code", code error)]))).

(** POST /create-paypal-order *)
Definition create_paypal_order (req : request) : M W response :=
  try_catch
    (amount <- lift (destructure (req_body req) "amount") ;;
     currency <- lift (destructure (req_body req) "currency") ;;
     value_ <- lift (call_toString rt amount) ;;
     let request_ := mkOrdersCreate "return=representation" "CAPTURE"
                                    [mkPurchaseUnit currency value_] in
     order_ <- call (Called_orders_create request_) (orders_create ext request_) ;;
     ret (Json 200 (VObj [("orderId", VStr (result_id order_))])))
    (fun error =>
       emit (Logged_error "PayPal order creation error:" error) ;;
       ret (Json 500 (error_body [("message", VStr "Failed to create PayPal order");
                                  ("details", VStr (message error))]))).

(** POST /capture-paypal-payment *)
Definition capture_paypal_payment (req : request) : M W response :=
  try_catch
    (orderId <- lift (destructure (req_body req) "orderId") ;;
     match new_OrdersCaptureRequest ext orderId with
     | Some e => throw e
     | None => ret tt
     end ;;
     capture <- call (Called_orders_capture orderId) (orders_capture ext orderId) ;;
     if String.eqb (result_status capture) "COMPLETED" then
       user_id <- lift (read_prop (req_user req) "id") ;;
       let o := mkOrder user_id orderId "paypal" "confirmed" in
       call (Called_createOrder o) (createOrder ext o) ;;
       ret (Json 200 (VObj [("success", VBool true);
                            ("captureId", VStr (result_id capture))]))
     else throw (Error "Payment not completed"))
    (fun error =>
       emit (Logged_error "PayPal payment capture error:" error) ;;
       ret (Json 500 (error_body [("message", VStr "Failed to capture PayPal payment");
                                  ("details", VStr (message error))]))).

(** POST /create-google-pay-payment *)
Definition create_google_pay_payment (req : request) : M W response :=
  try_catch
    (amount <- lift (destructure (req_body req) "amount") ;;
     currency <- lift (destructure (req_body req) "currency") ;;
     paymentData <- lift (destructure (req_body req) "paymentData") ;;
     token <- lift (read_prop paymentData "token") ;;
     let mparams := mkMethodParams "card" token in
     paymentMethod_ <- call (Called_paymentMethods_create mparams)
                            (paymentMethods_create ext mparams) ;;
     let params := mkIntentParams amount currency (VStr (pm_id paymentMethod_))
                                  true return_url in
     paymentIntent <- call (Called_paymentIntents_create params)
                           (paymentIntents_create ext params) ;;
     ret (Json 200 (VObj [("success", VBool true);
                          ("paymentIntentId", VStr (pi_id paymentIntent))])))
    (fun error =>
       emit (Logged_error "Google Pay payment error:" error) ;;
       ret (Json 500 (error_body [("message", VStr "Failed to process Google Pay payment");
                                  ("details", VStr (message error))]))).

Definition handleSuccessfulPayment (paymentIntent : payment_intent) : M W unit :=
  try_catch
    (let o := mkOrder (get_field (VObj (pi_metadata paymentIntent)) "userId")
                      (VStr (pi_id paymentIntent)) "card" "confirmed" in
     call (Called_createOrder o) (createOrder ext o))
    (fun error =>
       emit (Logged_error "Error handling successful payment:" error) ;;
       throw error).

Definition handleFailedPayment (paymentIntent : payment_intent) : M W unit :=
  try_catch
    (emit (Logged_error_data "Payment failed:"
             (VObj [("paymentIntentId", VStr (pi_id paymentIntent));
                    ("error", pi_last_payment_error paymentIntent)])))
    (fun error =>
       emit (Logged_error "Error handling failed payment:" error) ;;
       throw error).

(** The [switch (event.type)] of the webhook handler. *)
Definition dispatch (ev : event) : M W unit :=
  if String.eqb (ev_type ev) "payment_intent.succeeded" then
    handleSuccessfulPayment (ev_object ev)
  else if String.eqb (ev_type ev) "payment_intent.payment_failed" then
    handleFailedPayment (ev_object ev)
  else emit (Logged_info ("Unhandled event type " ++ ev_type ev)).

(** POST /webhook, with the dispatch step as a parameter. *)
Definition webhook_with (dispatch_step : event -> M W unit) (req : request) : M W response :=
  let sig := header req "stripe-signature" in
  fun s =>
    match constructEvent ext (req_body req) sig (STRIPE_WEBHOOK_SECRET env) (world s) with
    | Throw err =>
        (emit (Logged_error "Webhook signature verification failed:" err) ;;
         ret (Send 400 ("Webhook Error: " ++ message err))) s
    | Normal ev =>
        try_catch
          (dispatch_step ev ;;
           ret (Json 200 (VObj [("received", VBool true)])))
          (fun error =>
             emit (Logged_error "Webhook processing error:" error) ;;
             ret (Json 500 (VObj [("error", VStr "Webhook processing failed")]))) s
    end.

Definition webhook : request -> M W response := webhook_with dispatch.

(** *** Route table *)

(** The middleware each [router.post] mounts before its handler. *)
Definition mounted (r : route) : list middleware :=
  match r with
  | post_create_payment_intent => [use_protectRoute; use_validatePayment]
  | post_create_paypal_order => [use_protectRoute; use_validatePayment]
  | post_capture_paypal_payment => [use_protectRoute]
  | post_create_google_pay_payment => [use_protectRoute; use_validatePayment]
  | post_webhook => [use_express_raw]
  end.

Definition handler (r : route) : request -> M W response :=
  match r with
  | post_create_payment_intent => create_payment_intent
  | post_create_paypal_order => create_paypal_order
  | post_capture_paypal_payment => capture_paypal_payment
  | post_create_google_pay_payment => create_google_pay_payment
  | post_webhook => webhook
  end.

Definition run_middleware (mw : middleware) (req : request) : M W outcome :=
  match mw with
  | use_protectRoute =>
      fun s => let (o, w') := protectRoute ext req (world s) in
               (Normal o, mkState w' (trace s))
  | use_validatePayment => validatePayment req
  | use_express_raw => ret (Next req)
  end.

(** Express runs the stack in order; a middleware that answers ends it. *)
Fixpoint run_stack (stack : list middleware) (h : request -> M W response)
         (req : request) : M W response :=
  match stack with
  | [] => h req
  | mw :: rest =>
      o <- run_middleware mw req ;;
      match o with
      | Responded r => ret r
      | Next req' => run_stack rest h req'
      end
  end.

Definition serve_with (h : request -> M W response) (r : route) : request -> M W response :=
  run_stack (mounted r) h.

Definition serve (r : route) : request -> M W response := serve_with (handler r) r.

End Backend.

(** ** A concrete deployment, for examples

    A runtime restricted to integer numbers, a small reading of the
    express-validator checks on primitive values, and collaborators driven by
    two switches of the outside world. *)
Module Demo.

Definition integer_to_string (n : number) : string :=
  match n with
  | NaN => "NaN"
  | Infinity true => "-Infinity"
  | Infinity false => "Infinity"
  | Finite q => NilZero.string_of_int (Z.to_int (Qnum q / Zpos (Qden q)))
  end.

Definition integer_of_string (s : string) : number :=
  match s with
  | "" => Finite 0
  | _ => match NilZero.int_of_string s with
         | Some i => Finite (inject_Z (Z.of_int i))
         | None => NaN
         end
  end.

Definition runtime : js_runtime := mkRuntime integer_to_string integer_of_string.

Definition is_digit (c : Ascii.ascii) : bool :=
  (48 <=? Ascii.nat_of_ascii c)%nat && (Ascii.nat_of_ascii c <=? 57)%nat.

Fixpoint all_digits (s : string) : bool :=
  match s with
  | EmptyString => true
  | String c rest => is_digit c && all_digits rest
  end.

(** After the integer digits: nothing, or a dot and at least one digit. *)
Fixpoint numeric_tail (seen_digit : bool) (s : string) : bool :=
  match s with
  | EmptyString => seen_digit
  | String c rest =>
      if is_digit c then numeric_tail true rest
      else if Ascii.eqb c "."%char
           then negb (String.eqb rest "") && all_digits rest
           else false
  end.

(** validator.js [isNumeric]: [^[+-]?([0-9]*[.])?[0-9]+$]. *)
Definition numeric_string (s : string) : bool :=
  match s with
  | String c rest =>
      if Ascii.eqb c "+"%char || Ascii.eqb c "-"%char
      then numeric_tail false rest
      else numeric_tail false s
  | EmptyString => false
  end.

(** The string a standard validator sees. *)
Definition stringify (v : value) : string :=
  if is_nullish v then ""
  else match to_string runtime v with
       | Normal s => s
       | Throw _ => ""
       end.

Definition holds (step : chain_step) (v : value) : bool :=
  match step with
  | isNumeric => numeric_string (stringify v)
  | isString => match v with VStr _ => true | _ => false end
  | isLength lo hi =>
      (lo <=? String.length (stringify v))%nat && (String.length (stringify v) <=? hi)%nat
  | notEmpty => negb (String.eqb (stringify v) "")
  | isObject => match v with VObj _ => true | _ => false end
  | withMessage _ => true
  end.

Definition field_error (path : string) (v : value) (msg : string) : value :=
  VObj [("type", VStr "field"); ("value", v); ("msg", VStr msg);
        ("path", VStr path); ("location", VStr "body")].

(** Every failing check of a chain reports an error; [withMessage] names the
    message of the check before it. *)
Fixpoint chain_errors (path : string) (v : value) (todo : list chain_step) : list value :=
  match todo with
  | [] => []
  | withMessage _ :: rest => chain_errors path v rest
  | check :: rest =>
      let msg := match rest with
                 | withMessage m :: _ => m
                 | _ => "Invalid value"
                 end in
      ((if holds check v then [] else [field_error path v msg])
         ++ chain_errors path v rest)%list
  end.

(** Field selection: the two paths of the rule sets. *)
Definition select (b : value) (path : string) : value :=
  if String.eqb path "paymentData.token"
  then get_field (get_field b "paymentData") "token"
  else get_field b path.

Definition run (c : validation_chain) (b : value) : list value :=
  chain_errors (field c) (select b (field c)) (steps c).

(** The outside world: the orders the controller stored, and whether the
    order store and the vendors accept requests. *)
Record world_state : Type := mkWorld {
  stored : list order;
  store_up : bool;
  vendor_up : bool
}.

Definition intent_1 : payment_intent :=
  mkIntent "pi_1" (VStr "pi_1_secret_x") [("userId", VStr "user_7")] VNull.

Definition declined : js_error :=
  mkError "Your card was declined." (VStr "card_declined").

Definition bad_signature : js_error :=
  Error "No signatures found matching the expected signature for payload.".

(** The SDK escapes the order id into the request path: an object or an
    array is converted with [String], which throws when the value has no
    primitive form. *)
Definition capture_request_error (orderId : value) : option js_error :=
  match orderId with
  | VObj _ | VArr _ =>
      match to_string runtime orderId with
      | Throw e => Some e
      | Normal _ => None
      end
  | _ => None
  end.

Definition collab : collaborators world_state :=
  mkCollaborators
    run
    (fun payload sig secret w =>
       if strict_eq_str sig "t=1,v1=good"
       then Normal (mkEvent (template payload) intent_1)
       else Throw bad_signature)
    (fun p w =>
       if vendor_up w then (Normal intent_1, w) else (Throw declined, w))
    (fun p w =>
       if vendor_up w then (Normal (mkPaymentMethod "pm_1"), w)
       else (Throw declined, w))
    (fun r w =>
       if vendor_up w then (Normal (mkPaypalResult "ORDER-1" "CREATED"), w)
       else (Throw (Error "UNPROCESSABLE_ENTITY"), w))
    capture_request_error
    (fun orderId w =>
       if vendor_up w
       then (Normal (mkPaypalResult "ORDER-1"
                       (if strict_eq_str orderId "ORDER-1" then "COMPLETED" else "PENDING")), w)
       else (Throw (Error "RESOURCE_NOT_FOUND"), w))
    (fun o w =>
       if store_up w
       then (Normal tt, mkWorld (stored w ++ [o]) (store_up w) (vendor_up w))
       else (Throw (Error "order store unavailable"), w))
    (fun req w =>
       (Next (mkRequest (req_body req) (req_headers req) (req_secure req)
                        (VObj [("id", VStr "user_1")])), w)).

Definition production : process_env :=
  mkEnv (VStr "production") (VStr "https://shop.example") (VStr "whsec_1").

Definition all_up : state world_state := mkState (mkWorld [] true true) [].
Definition store_down : state world_state := mkState (mkWorld [] false true) [].
Definition vendor_down : state world_state := mkState (mkWorld [] true false) [].

Definition json_request (b : value) (secure : bool) : request :=
  mkRequest b [] secure (VObj [("id", VStr "user_1")]).

Definition card_body : value :=
  VObj [("method", VStr "card"); ("amount", VNum (Finite (inject_Z 1999)));
        ("currency", VStr "usd"); ("paymentMethodId", VStr "pm_card_visa")].

Definition paypal_body : value :=
  VObj [("method", VStr "paypal"); ("amount", VNum (Finite (inject_Z 25)));
        ("currency", VStr "eur")].

Definition webhook_request (payload sig : string) : request :=
  mkRequest (VStr payload) [("stripe-signature", VStr sig)] true VUndefined.

Definition forged_delivery : request :=
  webhook_request "payment_intent.succeeded" "t=1,v1=forged".

Definition succeeded_delivery : request :=
  webhook_request "payment_intent.succeeded" "t=1,v1=good".

Definition card_request : request := json_request card_body true.

Definition insecure_card_request : request := json_request card_body false.

(** Declares the card method and nothing else, over plain HTTP. *)
Definition insecure_incomplete_request : request :=
  json_request (VObj [("method", VStr "card")]) false.

Definition bitcoin_request : request :=
  json_request (VObj [("method", VStr "bitcoin"); ("amount", VNum (Finite (inject_Z 5)));
                      ("currency", VStr "usd")]) true.

Definition insecure_bitcoin_request : request :=
  json_request (VObj [("method", VStr "bitcoin")]) false.

Definition zero_amount_request : request :=
  json_request (VObj [("method", VStr "paypal"); ("amount", VNum (Finite 0));
                      ("currency", VStr "eur")]) true.

Definition paypal_request : request := json_request paypal_body true.

Definition capture_request : request :=
  json_request (VObj [("orderId", VStr "ORDER-1")]) true.

(** A capture request whose order id is a number. *)
Definition numeric_order_id_request : request :=
  json_request (VObj [("orderId", VNum (Finite (inject_Z 7)))]) true.

(** A capture request whose order id is an object with no primitive form. *)
Definition object_order_id_request : request :=
  json_request (VObj [("orderId", VObj [("toString", VNum (Finite 1))])]) true.

End Demo.

(** ** utils/logger: the line format of payment logs *)

Definition newline : string := String (Ascii.ascii_of_nat 10) EmptyString.

(** ToBoolean, the test of an [if]. *)
Definition to_boolean (v : value) : bool :=
  match v with
  | VUndefined | VNull => false
  | VBool b => b
  | VNum NaN => false
  | VNum (Infinity _) => true
  | VNum (Finite q) => negb (Qeq_bool q 0)
  | VStr s => negb (String.eqb s "")
  | VArr _ | VObj _ => true
  end.

(** The rest of an object pattern: the own properties not named before it. *)
Definition rest_without (named : list string) (props : list (string * value))
  : list (string * value) :=
  filter (fun kv => negb (existsb (String.eqb (fst kv)) named)) props.

Section Logger.
Variable rt : js_runtime.
(** [JSON.stringify] on a value that is not [undefined]. *)
Variable JSON_stringify : value -> string.

(** [format.printf(({ level, message, timestamp, ...metadata }) => ...)]:
    [info] holds the own properties of the log record. *)
Definition paymentFormat (info : list (string * value)) : completion string :=
  let level := get_field (VObj info) "level" in
  let message_ := get_field (VObj info) "message" in
  let timestamp := get_field (VObj info) "timestamp" in
  let metadata := rest_without ["level"; "message"; "timestamp"] info in
  match to_string rt timestamp with
  | Throw e => Throw e
  | Normal t =>
  match to_string rt level with
  | Throw e => Throw e
  | Normal l =>
  match to_string rt message_ with
  | Throw e => Throw e
  | Normal m =>
      let msg := t ++ " [" ++ l ++ "]: " ++ m in
      match
        (if to_boolean (get_field (VObj metadata) "paymentId")
         then match to_string rt (get_field (VObj metadata) "paymentId") with
              | Throw e => Throw e
              | Normal pid => Normal (msg ++ " [Payment ID: " ++ pid ++ "]")
              end
         else Normal msg)
      with
      | Throw e => Throw e
      | Normal msg1 =>
          let msg2 :=
            if to_boolean (get_field (VObj metadata) "error")
            then msg1 ++ newline ++ "Error: "
                      ++ JSON_stringify (get_field (VObj metadata) "error")
            else msg1 in
          let msg3 :=
            if (0 <? List.length metadata)%nat
            then msg2 ++ newline ++ "Metadata: " ++ JSON_stringify (VObj metadata)
            else msg2 in
          Normal msg3
      end
  end end end.
End Logger.

(** ** More requests and deployments for examples *)
Module Cases.

(** A vendor that tokenises cards but declines every payment intent. *)
Definition collab_declining : collaborators Demo.world_state :=
  mkCollaborators
    (validation_run Demo.collab)
    (constructEvent Demo.collab)
    (fun p w => (Throw Demo.declined, w))
    (paymentMethods_create Demo.collab)
    (orders_create Demo.collab)
    (new_OrdersCaptureRequest Demo.collab)
    (orders_capture Demo.collab)
    (createOrder Demo.collab)
    (protectRoute Demo.collab).

(** An authentication middleware that turns every request away. *)
Definition collab_locked : collaborators Demo.world_state :=
  mkCollaborators
    (validation_run Demo.collab)
    (constructEvent Demo.collab)
    (paymentIntents_create Demo.collab)
    (paymentMethods_create Demo.collab)
    (orders_create Demo.collab)
    (new_OrdersCaptureRequest Demo.collab)
    (orders_capture Demo.collab)
    (createOrder Demo.collab)
    (fun req w => (Responded (Json 401 (error_body [("message", VStr "Not authorized")])), w)).

Definition development : process_env :=
  mkEnv (VStr "development") VUndefined (VStr "whsec_1").

Definition google_pay_body : value :=
  VObj [("method", VStr "google_pay"); ("amount", VNum (Finite (inject_Z 500)));
        ("currency", VStr "usd");
        ("paymentData", VObj [("token", VStr "tok_gpay")])].

Definition google_pay_request : request := Demo.json_request google_pay_body true.

(** A Google Pay request that carries no [paymentData]. *)
Definition google_pay_no_data : request :=
  Demo.json_request (VObj [("method", VStr "google_pay");
                           ("amount", VNum (Finite (inject_Z 500)));
                           ("currency", VStr "usd")]) true.

(** A Google Pay request whose [paymentData] is [null]. *)
Definition google_pay_null_data : request :=
  Demo.json_request (VObj [("method", VStr "google_pay");
                           ("amount", VNum (Finite (inject_Z 500)));
                           ("currency", VStr "usd"); ("paymentData", VNull)]) true.

Definition no_body_request : request :=
  mkRequest VUndefined [] true (VObj [("id", VStr "user_1")]).

Definition null_body_request : request :=
  mkRequest VNull [] true (VObj [("id", VStr "user_1")]).

(** The largest amount the middleware lets through. *)
Definition max_amount_request : request :=
  Demo.json_request (VObj [("method", VStr "paypal");
                           ("amount", VNum (Finite (inject_Z 999999)));
                           ("currency", VStr "eur")]) true.

(** A capture request on which [req.user] is [null]. *)
Definition null_user_capture : request :=
  mkRequest (VObj [("orderId", VStr "ORDER-1")]) [] true VNull.

(** A create-paypal-order body whose amount is [null]. *)
Definition null_amount_request : request :=
  Demo.json_request (VObj [("method", VStr "paypal"); ("amount", VNull);
                           ("currency", VStr "eur")]) true.

(** A capture request on which authentication left no [req.user]. *)
Definition anonymous_capture : request :=
  mkRequest (VObj [("orderId", VStr "ORDER-1")]) [] true VUndefined.


Definition nan_amount_request : request :=
  Demo.json_request (VObj [("method", VStr "paypal"); ("amount", VNum NaN);
                           ("currency", VStr "eur")]) true.


Definition no_amount_request : request :=
  Demo.json_request (VObj [("method", VStr "paypal"); ("currency", VStr "eur")]) true.

(** A validator that reports nothing, whatever the body. *)
Definition collab_lenient : collaborators Demo.world_state :=
  mkCollaborators
    (fun _ _ => [])
    (constructEvent Demo.collab)
    (paymentIntents_create Demo.collab)
    (paymentMethods_create Demo.collab)
    (orders_create Demo.collab)
    (new_OrdersCaptureRequest Demo.collab)
    (orders_capture Demo.collab)
    (createOrder Demo.collab)
    (protectRoute Demo.collab).

(** A stand-in for [JSON.stringify]: the keys of an object. *)
Definition show_keys (v : value) : string :=
  match v with
  | VObj props => "{" ++ String.concat "," (map fst props) ++ "}"
  | VStr s => s
  | _ => "?"
  end.

Definition bare_record : list (string * value) :=
  [("level", VStr "info"); ("message", VStr "started");
   ("timestamp", VStr "2024-01-01T00:00:00.000Z")].

Definition payment_record : list (string * value) :=
  [("level", VStr "error"); ("message", VStr "Payment failed:");
   ("timestamp", VStr "2024-01-01T00:00:00.000Z");
   ("paymentId", VStr "pi_1"); ("service", VStr "payment-service")].

End Cases.

(** * Properties *)

Unset Implicit Arguments.

Lemma created_orders_app (a b : list entry) :
  created_orders (a ++ b) = (created_orders a ++ created_orders b)%list.
Proof.
  induction a as [|e a IH]; simpl; [reflexivity|].
  destruct e; simpl; rewrite IH; reflexivity.
Qed.

Lemma vendor_calls_app (a b : list entry) :
  vendor_calls (a ++ b) = (vendor_calls a ++ vendor_calls b)%list.
Proof. apply filter_app. Qed.

Lemma validation_runs_app (a b : list entry) :
  validation_runs (a ++ b) = (validation_runs a ++ validation_runs b)%list.
Proof. apply filter_app. Qed.

Lemma vendor_calls_validation (rules : list validation_chain) :
  vendor_calls (map Ran_validation rules) = [].
Proof. induction rules; simpl; auto. Qed.

Lemma created_orders_validation (rules : list validation_chain) :
  created_orders (map Ran_validation rules) = [].
Proof. induction rules; simpl; auto. Qed.

Lemma strict_eq_str_true (v : value) (lit : string) :
  strict_eq_str v lit = true <-> v = VStr lit.
Proof.
  destruct v; simpl; try (split; [discriminate | intros H; discriminate H]).
  rewrite String.eqb_eq. split; [intros ->; reflexivity | intros H; injection H; auto].
Qed.

Lemma strict_eq_str_false (v : value) (lit : string) :
  v <> VStr lit -> strict_eq_str v lit = false.
Proof.
  intros H. destruct (strict_eq_str v lit) eqn:E; [|reflexivity].
  apply strict_eq_str_true in E. contradiction.
Qed.

Lemma select_rules_unknown (m : value) :
  m <> VStr "card" -> m <> VStr "paypal" -> m <> VStr "google_pay" ->
  select_rules m = None.
Proof.
  intros H1 H2 H3. unfold select_rules.
  rewrite !strict_eq_str_false by assumption. reflexivity.
Qed.

Lemma destructure_object (v : value) (k : string) :
  is_nullish v = false -> destructure v k = Normal (get_field v k).
Proof. intros H. unfold destructure. rewrite H. reflexivity. Qed.

Lemma destructure_normal (v : value) (k : string) (x : value) :
  destructure v k = Normal x -> is_nullish v = false /\ x = get_field v k.
Proof.
  unfold destructure. destruct (is_nullish v); [discriminate|].
  intros H. injection H as <-. auto.
Qed.

Lemma get_field_nullish (v : value) (k : string) :
  is_nullish v = true -> get_field v k = VUndefined.
Proof. destruct v; simpl; congruence. Qed.

(** The two comparisons of the amount check convert the amount once each,
    the same way: they throw together. *)
Lemma js_gt_defined (rt : js_runtime) (v : value) (k k' : number) (b : bool) :
  js_gt rt v k = Normal b -> exists b', js_le rt v k' = Normal b'.
Proof.
  unfold js_gt, js_le. destruct (to_number rt v); [eauto | discriminate].
Qed.

Lemma js_le_defined (rt : js_runtime) (v : value) (k k' : number) (b : bool) :
  js_le rt v k = Normal b -> exists b', js_gt rt v k' = Normal b'.
Proof.
  unfold js_gt, js_le. destruct (to_number rt v); [eauto | discriminate].
Qed.

Lemma js_le_undefined (rt : js_runtime) (k : number) :
  js_le rt VUndefined k = Normal false.
Proof. unfold js_le. simpl. destruct k as [| [] |]; reflexivity. Qed.

Lemma js_gt_undefined (rt : js_runtime) (k : number) :
  js_gt rt VUndefined k = Normal false.
Proof. unfold js_gt. simpl. destruct k as [| [] |]; reflexivity. Qed.

(** On a finite number the two comparisons are the order of the rationals. *)
Lemma js_le_finite (rt : js_runtime) (q k : Q) :
  js_le rt (VNum (Finite q)) (Finite k) = Normal true <-> (q <= k)%Q.
Proof.
  unfold js_le; simpl. destruct (Qle_bool q k) eqn:E; simpl.
  - apply Qle_bool_iff in E. tauto.
  - split; [discriminate|]. intros H. apply Qle_bool_iff in H. congruence.
Qed.

Lemma js_gt_finite (rt : js_runtime) (q k : Q) :
  js_gt rt (VNum (Finite q)) (Finite k) = Normal true <-> (k < q)%Q.
Proof.
  unfold js_gt; simpl. destruct (Qle_bool q k) eqn:E; simpl.
  - apply Qle_bool_iff in E. split; [discriminate|]. intros H.
    exfalso. apply (Qlt_not_le _ _ H E).
  - split; [|reflexivity]. intros _. apply Qnot_le_lt. intros H.
    apply Qle_bool_iff in H. congruence.
Qed.

Section Properties.
Context {W : Type}.
Variable rt : js_runtime.
Variable ext : collaborators W.
Variable env : process_env.

Lemma run_rules_spec (rules : list validation_chain) (req : request) (s : state W) :
  run_rules ext rules req s =
    (Normal (collect_errors ext rules (req_body req)),
     mkState (world s) (trace s ++ map Ran_validation rules)).
Proof.
  revert s. induction rules as [|c rest IH]; intros s.
  - simpl. unfold ret. rewrite app_nil_r. destruct s; reflexivity.
  - simpl. unfold bind at 1. unfold emit. unfold bind. rewrite IH. simpl.
    unfold ret. rewrite <- app_assoc. reflexivity.
Qed.

(** A middleware that answers ends the stack: the handler is not run. *)
Lemma run_stack_responded (mw : middleware) (rest : list middleware)
      (h : request -> M W response) (req : request) (s s' : state W) (r : response) :
  run_middleware rt ext env mw req s = (Normal (Responded r), s') ->
  run_stack rt ext env (mw :: rest) h req s = (Normal r, s').
Proof. intros H. simpl. unfold bind. rewrite H. reflexivity. Qed.

Lemma run_stack_next (mw : middleware) (rest : list middleware)
      (h : request -> M W response) (req req' : request) (s s' : state W) :
  run_middleware rt ext env mw req s = (Normal (Next req'), s') ->
  run_stack rt ext env (mw :: rest) h req s = run_stack rt ext env rest h req' s'.
Proof. intros H. simpl. unfold bind. rewrite H. reflexivity. Qed.

Lemma validatePayment_default (req : request) (s : state W) :
  is_nullish (req_body req) = false ->
  select_rules (get_field (req_body req) "method") = None ->
  validatePayment rt ext env req s =
    (Normal (Responded (Json 400 (error_body [("message", VStr "Invalid payment method")]))), s).
Proof.
  intros Hb Hm. unfold validatePayment, try_catch, bind, lift.
  rewrite (destructure_object _ _ Hb), Hm. reflexivity.
Qed.

Lemma validatePayment_field_errors (req : request) (s : state W)
      (rules : list validation_chain) :
  is_nullish (req_body req) = false ->
  select_rules (get_field (req_body req) "method") = Some rules ->
  collect_errors ext rules (req_body req) <> [] ->
  validatePayment rt ext env req s =
    (Normal (Responded (Json 400 (error_body
               [("message", VStr "Validation error");
                ("details", VArr (collect_errors ext rules (req_body req)))]))),
     mkState (world s) (trace s ++ map Ran_validation rules)).
Proof.
  intros Hb Hm He. unfold validatePayment, try_catch, bind, lift.
  rewrite (destructure_object _ _ Hb), Hm, run_rules_spec.
  destruct (collect_errors ext rules (req_body req)); [congruence | reflexivity].
Qed.

Lemma validatePayment_amount (req : request) (s : state W)
      (rules : list validation_chain) (too_low : bool) :
  is_nullish (req_body req) = false ->
  select_rules (get_field (req_body req) "method") = Some rules ->
  collect_errors ext rules (req_body req) = [] ->
  js_le rt (get_field (req_body req) "amount") (Finite 0) = Normal too_low ->
  (if too_low then True
   else js_gt rt (get_field (req_body req) "amount") (Finite (inject_Z 999999)) = Normal true) ->
  validatePayment rt ext env req s =
    (Normal (Responded (Json 400 (error_body
               [("message", VStr "Invalid amount");
                ("details", VStr "Amount must be between 0 and 999,999")]))),
     mkState (world s) (trace s ++ map Ran_validation rules)).
Proof.
  intros Hb Hm He Hle Hgt. unfold validatePayment, try_catch, bind, lift.
  rewrite (destructure_object _ _ Hb), Hm, run_rules_spec, He. simpl.
  rewrite (destructure_object _ _ Hb), Hle.
  destruct too_low; simpl; [reflexivity|]. rewrite Hgt. reflexivity.
Qed.

Lemma validatePayment_in_range (req : request) (s : state W)
      (rules : list validation_chain) :
  is_nullish (req_body req) = false ->
  select_rules (get_field (req_body req) "method") = Some rules ->
  collect_errors ext rules (req_body req) = [] ->
  js_le rt (get_field (req_body req) "amount") (Finite 0) = Normal false ->
  js_gt rt (get_field (req_body req) "amount") (Finite (inject_Z 999999)) = Normal false ->
  validatePayment rt ext env req s =
    (Normal (if negb (req_secure req) && strict_eq_str (NODE_ENV env) "production"
             then Responded (Json 403 (error_body
                    [("message", VStr "Payment must be processed over HTTPS")]))
             else Next req),
     mkState (world s) (trace s ++ map Ran_validation rules)).
Proof.
  intros Hb Hm He Hle Hgt. unfold validatePayment, try_catch, bind, lift.
  rewrite (destructure_object _ _ Hb), Hm, run_rules_spec, He. simpl.
  rewrite (destructure_object _ _ Hb), Hle. simpl. rewrite Hgt. simpl.
  destruct (negb (req_secure req) && strict_eq_str (NODE_ENV env) "production");
    reflexivity.
Qed.

(** C4: a request whose body field [method] is none of card, paypal and
    google_pay is answered 400 "Invalid payment method" by the validation
    middleware; the state after it is the state before it, so no field rule
    ran and nothing was called; whatever handler follows on the stack is not
    run, and on every route that mounts the middleware the answer is that 400
    with no vendor call. *)
Theorem validatePayment_unknown_method (req : request) (s : state W) (method : value) :
  destructure (req_body req) "method" = Normal method ->
  method <> VStr "card" ->
  method <> VStr "paypal" ->
  method <> VStr "google_pay" ->
  let rejected := Json 400 (error_body [("message", VStr "Invalid payment method")]) in
  validatePayment rt ext env req s = (Normal (Responded rejected), s)
  /\ validation_runs (trace (snd (validatePayment rt ext env req s))) = validation_runs (trace s)
  /\ (forall h rest,
        run_stack rt ext env (use_validatePayment :: rest) h req s = (Normal rejected, s))
  /\ (forall r h req0 w0,
        In use_validatePayment (mounted r) ->
        protectRoute ext req0 w0 = (Next req, world s) ->
        serve_with rt ext env h r req0 (mkState w0 (trace s)) = (Normal rejected, s)
        /\ vendor_calls (trace (snd (serve_with rt ext env h r req0 (mkState w0 (trace s)))))
           = vendor_calls (trace s)).
Proof.
  intros Hd H1 H2 H3 rejected.
  destruct (destructure_normal _ _ _ Hd) as [Hb ->].
  pose proof (validatePayment_default req s Hb (select_rules_unknown _ H1 H2 H3)) as E.
  fold rejected in E.
  assert (S : forall h rest,
             run_stack rt ext env (use_validatePayment :: rest) h req s = (Normal rejected, s)).
  { intros h rest. apply run_stack_responded. exact E. }
  split; [exact E|]. split; [rewrite E; reflexivity|]. split; [exact S|].
  intros r h req0 w0 Hin Hp.
  assert (R : serve_with rt ext env h r req0 (mkState w0 (trace s)) = (Normal rejected, s)).
  { unfold serve_with.
    destruct r; simpl in Hin;
      try (destruct Hin as [Hin|[Hin|[]]]; discriminate Hin);
      try (destruct Hin as [Hin|[]]; discriminate Hin);
      unfold mounted;
      (erewrite run_stack_next;
       [ apply S
       | simpl; rewrite Hp; destruct s; reflexivity ]). }
  split; [exact R | rewrite R; reflexivity].
Qed.

(** Every path an out-of-range amount can take through the middleware ends
    in a 400: the default branch, the field errors, or the amount check. *)
Lemma validatePayment_out_of_range_400 (req : request) (s : state W) :
  js_le rt (get_field (req_body req) "amount") (Finite 0) = Normal true
  \/ js_gt rt (get_field (req_body req) "amount") (Finite (inject_Z 999999)) = Normal true ->
  exists b s',
    validatePayment rt ext env req s = (Normal (Responded (Json 400 b)), s').
Proof.
  intros H.
  destruct (is_nullish (req_body req)) eqn:Hb.
  - rewrite (get_field_nullish _ _ Hb), js_le_undefined, js_gt_undefined in H.
    destruct H; discriminate.
  - destruct (select_rules (get_field (req_body req) "method")) as [rules|] eqn:Hm.
    + destruct (collect_errors ext rules (req_body req)) as [|e errs] eqn:He.
      * destruct H as [H|H].
        -- eexists _, _. apply (validatePayment_amount req s rules true Hb Hm He H). exact I.
        -- destruct (js_gt_defined _ _ _ (Finite 0) _ H) as [b' Hle].
           eexists _, _. apply (validatePayment_amount req s rules b' Hb Hm He Hle).
           destruct b'; [exact I | exact H].
      * eexists _, _. apply (validatePayment_field_errors req s rules Hb Hm). congruence.
    + eexists _, _. apply (validatePayment_default req s Hb Hm).
Qed.

(** The same for an amount that is a finite number, with the order of the
    rationals. *)
Lemma validatePayment_numeric_amount_400 (req : request) (s : state W) (q : Q) :
  get_field (req_body req) "amount" = VNum (Finite q) ->
  (q <= 0)%Q \/ (inject_Z 999999 < q)%Q ->
  exists b s',
    validatePayment rt ext env req s = (Normal (Responded (Json 400 b)), s').
Proof.
  intros Ha Hq. apply validatePayment_out_of_range_400. rewrite Ha.
  destruct Hq as [Hq|Hq]; [left; apply js_le_finite | right; apply js_gt_finite];
    exact Hq.
Qed.

(** C5: when the amount of the body is at most 0 or above 999,999 (as the
    comparisons of the runtime decide it), the validation middleware answers
    400 whatever the declared method is, and the handler that follows it on
    the stack is not run. *)
Theorem validatePayment_amount_out_of_range (req : request) (s : state W) :
  js_le rt (get_field (req_body req) "amount") (Finite 0) = Normal true
  \/ js_gt rt (get_field (req_body req) "amount") (Finite (inject_Z 999999)) = Normal true ->
  exists b s',
    validatePayment rt ext env req s = (Normal (Responded (Json 400 b)), s')
    /\ forall h rest,
         run_stack rt ext env (use_validatePayment :: rest) h req s = (Normal (Json 400 b), s').
Proof.
  intros H.
  destruct (validatePayment_out_of_range_400 req s H) as (b & s' & E).
  exists b, s'. split; [exact E|].
  intros h rest. apply run_stack_responded. exact E.
Qed.

(** *** The webhook *)

Lemma webhook_unverified (k : event -> M W unit) (req : request) (s : state W)
      (err : js_error) :
  constructEvent ext (req_body req) (header req "stripe-signature")
                 (STRIPE_WEBHOOK_SECRET env) (world s) = Throw err ->
  webhook_with ext env k req s =
    (Normal (Send 400 ("Webhook Error: " ++ message err)),
     mkState (world s)
             (trace s ++ [Logged_error "Webhook signature verification failed:" err])).
Proof. intros H. unfold webhook_with. rewrite H. reflexivity. Qed.

Lemma webhook_verified (k : event -> M W unit) (req : request) (s : state W) (ev : event) :
  constructEvent ext (req_body req) (header req "stripe-signature")
                 (STRIPE_WEBHOOK_SECRET env) (world s) = Normal ev ->
  webhook_with ext env k req s =
    match k ev s with
    | (Normal _, s1) => (Normal (Json 200 (VObj [("received", VBool true)])), s1)
    | (Throw e, s1) =>
        (Normal (Json 500 (VObj [("error", VStr "Webhook processing failed")])),
         mkState (world s1) (trace s1 ++ [Logged_error "Webhook processing error:" e]))
    end.
Proof.
  intros H. unfold webhook_with. rewrite H. unfold try_catch, bind.
  destruct (k ev s) as [[u|e] s1]; reflexivity.
Qed.

(** The order the success handler builds from a payment intent. *)
Lemma handleSuccessfulPayment_spec (intent : payment_intent) (s : state W) :
  handleSuccessfulPayment ext intent s =
    let o := mkOrder (get_field (VObj (pi_metadata intent)) "userId")
                     (VStr (pi_id intent)) "card" "confirmed" in
    match createOrder ext o (world s) with
    | (Normal u, w') => (Normal u, mkState w' (trace s ++ [Called_createOrder o]))
    | (Throw e, w') =>
        (Throw e,
         mkState w' ((trace s ++ [Called_createOrder o])
                       ++ [Logged_error "Error handling successful payment:" e]))
    end.
Proof.
  unfold handleSuccessfulPayment, try_catch, call. simpl.
  destruct (createOrder ext _ (world s)) as [[u|e] w']; reflexivity.
Qed.

Lemma handleFailedPayment_spec (intent : payment_intent) (s : state W) :
  handleFailedPayment intent s =
    (Normal tt,
     mkState (world s)
             (trace s ++ [Logged_error_data "Payment failed:"
                            (VObj [("paymentIntentId", VStr (pi_id intent));
                                   ("error", pi_last_payment_error intent)])])).
Proof. reflexivity. Qed.

(** A verified [payment_intent.succeeded] event hands one order, built from
    the intent, to [createOrder], whether or not that call fails. *)
Lemma webhook_succeeded_orders (req : request) (s : state W) (ev : event) :
  constructEvent ext (req_body req) (header req "stripe-signature")
                 (STRIPE_WEBHOOK_SECRET env) (world s) = Normal ev ->
  ev_type ev = "payment_intent.succeeded" ->
  created_orders (trace (snd (webhook ext env req s))) =
    (created_orders (trace s)
       ++ [mkOrder (get_field (VObj (pi_metadata (ev_object ev))) "userId")
                   (VStr (pi_id (ev_object ev))) "card" "confirmed"])%list.
Proof.
  intros Hv Ht. unfold webhook. rewrite (webhook_verified _ _ _ _ Hv).
  unfold dispatch. rewrite Ht. simpl. rewrite handleSuccessfulPayment_spec. simpl.
  destruct (createOrder ext _ (world s)) as [[u|e] w']; simpl;
    rewrite ?created_orders_app; simpl; rewrite ?app_nil_r; reflexivity.
Qed.

(** C1: when signature verification fails, the webhook handler answers 400
    with the error message, whatever the dispatch step would do (it is not
    run), and no order is handed to the order controller. *)
Theorem webhook_invalid_signature (req : request) (s : state W) (err : js_error) :
  constructEvent ext (req_body req) (header req "stripe-signature")
                 (STRIPE_WEBHOOK_SECRET env) (world s) = Throw err ->
  (forall dispatch_step : event -> M W unit,
      webhook_with ext env dispatch_step req s =
        (Normal (Send 400 ("Webhook Error: " ++ message err)),
         mkState (world s)
                 (trace s ++ [Logged_error "Webhook signature verification failed:" err])))
  /\ status_of_completion (fst (webhook ext env req s)) = Some 400%Z
  /\ created_orders (trace (snd (webhook ext env req s))) = created_orders (trace s).
Proof.
  intros H. split; [|split].
  - intros k. apply webhook_unverified. exact H.
  - unfold webhook. rewrite (webhook_unverified _ _ _ _ H). reflexivity.
  - unfold webhook. rewrite (webhook_unverified _ _ _ _ H). simpl.
    rewrite created_orders_app. simpl. apply app_nil_r.
Qed.

(** A verified [payment_intent.succeeded] event: the whole run is decided
    by what [createOrder] returns on the order built from the intent. *)
Lemma webhook_succeeded_result (req : request) (s : state W) (ev : event) :
  constructEvent ext (req_body req) (header req "stripe-signature")
                 (STRIPE_WEBHOOK_SECRET env) (world s) = Normal ev ->
  ev_type ev = "payment_intent.succeeded" ->
  webhook ext env req s =
    let o := mkOrder (get_field (VObj (pi_metadata (ev_object ev))) "userId")
                     (VStr (pi_id (ev_object ev))) "card" "confirmed" in
    match createOrder ext o (world s) with
    | (Normal _, w') =>
        (Normal (Json 200 (VObj [("received", VBool true)])),
         mkState w' (trace s ++ [Called_createOrder o]))
    | (Throw e, w') =>
        (Normal (Json 500 (VObj [("error", VStr "Webhook processing failed")])),
         mkState w' (trace s ++ [Called_createOrder o;
                                 Logged_error "Error handling successful payment:" e;
                                 Logged_error "Webhook processing error:" e]))
    end.
Proof.
  intros Hv Ht. unfold webhook. rewrite (webhook_verified _ _ _ _ Hv).
  unfold dispatch. rewrite Ht. simpl. rewrite handleSuccessfulPayment_spec. cbv zeta.
  destruct (createOrder ext _ (world s)) as [[u|e] w']; simpl;
    rewrite <- ?app_assoc; reflexivity.
Qed.

(** C6: for a verified event, [payment_intent.succeeded] calls [createOrder]
    exactly once, on the order {userId from the intent metadata, paymentId
    the intent id, card, confirmed} and in the world the delivery arrived in:
    when the call returns the answer is {received: true}, when it throws the
    answer is 500 with the generic message; [payment_intent.payment_failed]
    only logs; any other type is logged and ignored; an exception in the
    dispatch gives 500 with the generic message, and otherwise the answer is
    {received: true}. *)
Theorem webhook_dispatch (req : request) (s : state W) (ev : event) :
  constructEvent ext (req_body req) (header req "stripe-signature")
                 (STRIPE_WEBHOOK_SECRET env) (world s) = Normal ev ->
  (ev_type ev = "payment_intent.succeeded" ->
   (forall u w',
       createOrder ext
         (mkOrder (get_field (VObj (pi_metadata (ev_object ev))) "userId")
                  (VStr (pi_id (ev_object ev))) "card" "confirmed") (world s)
         = (Normal u, w') ->
       webhook ext env req s =
         (Normal (Json 200 (VObj [("received", VBool true)])),
          mkState w'
            (trace s ++ [Called_createOrder
                           (mkOrder (get_field (VObj (pi_metadata (ev_object ev))) "userId")
                                    (VStr (pi_id (ev_object ev))) "card" "confirmed")])))
   /\ (forall e w',
       createOrder ext
         (mkOrder (get_field (VObj (pi_metadata (ev_object ev))) "userId")
                  (VStr (pi_id (ev_object ev))) "card" "confirmed") (world s)
         = (Throw e, w') ->
       webhook ext env req s =
         (Normal (Json 500 (VObj [("error", VStr "Webhook processing failed")])),
          mkState w'
            (trace s ++ [Called_createOrder
                           (mkOrder (get_field (VObj (pi_metadata (ev_object ev))) "userId")
                                    (VStr (pi_id (ev_object ev))) "card" "confirmed");
                         Logged_error "Error handling successful payment:" e;
                         Logged_error "Webhook processing error:" e])))
   /\ created_orders (trace (snd (webhook ext env req s))) =
       (created_orders (trace s)
          ++ [mkOrder (get_field (VObj (pi_metadata (ev_object ev))) "userId")
                      (VStr (pi_id (ev_object ev))) "card" "confirmed"])%list)
  /\ (ev_type ev = "payment_intent.payment_failed" ->
      webhook ext env req s =
        (Normal (Json 200 (VObj [("received", VBool true)])),
         mkState (world s)
                 (trace s ++ [Logged_error_data "Payment failed:"
                                (VObj [("paymentIntentId", VStr (pi_id (ev_object ev)));
                                       ("error", pi_last_payment_error (ev_object ev))])])))
  /\ (ev_type ev <> "payment_intent.succeeded" ->
      ev_type ev <> "payment_intent.payment_failed" ->
      webhook ext env req s =
        (Normal (Json 200 (VObj [("received", VBool true)])),
         mkState (world s) (trace s ++ [Logged_info ("Unhandled event type " ++ ev_type ev)])))
  /\ (forall e s1, dispatch ext ev s = (Throw e, s1) ->
      webhook ext env req s =
        (Normal (Json 500 (VObj [("error", VStr "Webhook processing failed")])),
         mkState (world s1) (trace s1 ++ [Logged_error "Webhook processing error:" e])))
  /\ (forall u s1, dispatch ext ev s = (Normal u, s1) ->
      webhook ext env req s = (Normal (Json 200 (VObj [("received", VBool true)])), s1)).
Proof.
  intros Hv. split; [|split; [|split; [|split]]].
  - intros Ht. split; [|split].
    + intros u w' Ho. rewrite (webhook_succeeded_result _ _ _ Hv Ht). cbv zeta.
      rewrite Ho. reflexivity.
    + intros e w' Ho. rewrite (webhook_succeeded_result _ _ _ Hv Ht). cbv zeta.
      rewrite Ho. reflexivity.
    + apply webhook_succeeded_orders; assumption.
  - intros Ht. unfold webhook. rewrite (webhook_verified _ _ _ _ Hv).
    unfold dispatch. rewrite Ht. reflexivity.
  - intros H1 H2. unfold webhook. rewrite (webhook_verified _ _ _ _ Hv).
    unfold dispatch.
    apply String.eqb_neq in H1. apply String.eqb_neq in H2. rewrite H1, H2.
    reflexivity.
  - intros e s1 Hd. unfold webhook. rewrite (webhook_verified _ _ _ _ Hv), Hd.
    reflexivity.
  - intros u s1 Hd. unfold webhook. rewrite (webhook_verified _ _ _ _ Hv), Hd.
    reflexivity.
Qed.

(** C9: the handler keeps nothing between two deliveries: the same verified
    [payment_intent.succeeded] event delivered twice calls [createOrder]
    twice on the same order, once per delivery, the second call in the world
    the first one left; each delivery is answered by what its own call
    returned. *)
Theorem webhook_replay (req : request) (s : state W) (ev : event) :
  constructEvent ext (req_body req) (header req "stripe-signature")
                 (STRIPE_WEBHOOK_SECRET env) (world s) = Normal ev ->
  constructEvent ext (req_body req) (header req "stripe-signature")
                 (STRIPE_WEBHOOK_SECRET env)
                 (world (snd (webhook ext env req s))) = Normal ev ->
  ev_type ev = "payment_intent.succeeded" ->
  (forall r1 w1 r2 w2,
      createOrder ext
        (mkOrder (get_field (VObj (pi_metadata (ev_object ev))) "userId")
                 (VStr (pi_id (ev_object ev))) "card" "confirmed") (world s) = (r1, w1) ->
      createOrder ext
        (mkOrder (get_field (VObj (pi_metadata (ev_object ev))) "userId")
                 (VStr (pi_id (ev_object ev))) "card" "confirmed") w1 = (r2, w2) ->
      world (snd (webhook ext env req s)) = w1
      /\ world (snd (webhook ext env req (snd (webhook ext env req s)))) = w2
      /\ fst (webhook ext env req s) =
           Normal (match r1 with
                   | Normal _ => Json 200 (VObj [("received", VBool true)])
                   | Throw _ => Json 500 (VObj [("error", VStr "Webhook processing failed")])
                   end)
      /\ fst (webhook ext env req (snd (webhook ext env req s))) =
           Normal (match r2 with
                   | Normal _ => Json 200 (VObj [("received", VBool true)])
                   | Throw _ => Json 500 (VObj [("error", VStr "Webhook processing failed")])
                   end))
  /\ created_orders (trace (snd (webhook ext env req s))) =
    (created_orders (trace s)
       ++ [mkOrder (get_field (VObj (pi_metadata (ev_object ev))) "userId")
                   (VStr (pi_id (ev_object ev))) "card" "confirmed"])%list
  /\ created_orders (trace (snd (webhook ext env req (snd (webhook ext env req s))))) =
    (created_orders (trace (snd (webhook ext env req s)))
       ++ [mkOrder (get_field (VObj (pi_metadata (ev_object ev))) "userId")
                   (VStr (pi_id (ev_object ev))) "card" "confirmed"])%list
  /\ created_orders (trace (snd (webhook ext env req (snd (webhook ext env req s))))) =
    (created_orders (trace s)
       ++ [mkOrder (get_field (VObj (pi_metadata (ev_object ev))) "userId")
                   (VStr (pi_id (ev_object ev))) "card" "confirmed";
           mkOrder (get_field (VObj (pi_metadata (ev_object ev))) "userId")
                   (VStr (pi_id (ev_object ev))) "card" "confirmed"])%list.
Proof.
  intros H1 H2 Ht.
  pose proof (webhook_succeeded_orders _ _ _ H1 Ht) as E1.
  pose proof (webhook_succeeded_orders _ _ _ H2 Ht) as E2.
  split; [| split; [exact E1 | split; [exact E2 |]]].
  - intros r1 w1 r2 w2 Ho1 Ho2.
    pose proof (webhook_succeeded_result _ _ _ H1 Ht) as R1. cbv zeta in R1.
    rewrite Ho1 in R1.
    assert (Hw1 : world (snd (webhook ext env req s)) = w1).
    { rewrite R1. destruct r1; reflexivity. }
    pose proof (webhook_succeeded_result _ _ _ H2 Ht) as R2. cbv zeta in R2.
    rewrite Hw1, Ho2 in R2.
    split; [exact Hw1|]. split; [rewrite R2; destruct r2; reflexivity|].
    split; [rewrite R1; destruct r1; reflexivity | rewrite R2; destruct r2; reflexivity].
  - rewrite E2, E1, <- app_assoc. reflexivity.
Qed.

(** *** The route handlers *)

Lemma validatePayment_next (req req' : request) (s : state W) :
  fst (validatePayment rt ext env req s) = Normal (Next req') ->
  req' = req /\ is_nullish (req_body req) = false.
Proof.
  unfold validatePayment, try_catch, bind, lift, destructure.
  destruct (is_nullish (req_body req)) eqn:Hb; simpl; [discriminate|].
  destruct (select_rules _) as [rules|]; simpl; [|discriminate].
  rewrite run_rules_spec.
  destruct (negb (isEmpty _)); simpl; [discriminate|].
  destruct (js_le rt _ _) as [[|]|e]; simpl; try discriminate.
  destruct (js_gt rt _ _) as [[|]|e]; simpl; try discriminate.
  destruct (negb (req_secure req) && _); simpl; [discriminate|].
  intros H. injection H as ->. auto.
Qed.

Lemma create_payment_intent_spec (req : request) (s : state W) :
  is_nullish (req_body req) = false ->
  create_payment_intent ext env req s =
    let params := mkIntentParams (get_field (req_body req) "amount")
                                 (get_field (req_body req) "currency")
                                 (get_field (req_body req) "paymentMethodId")
                                 true (return_url env) in
    match paymentIntents_create ext params (world s) with
    | (Normal intent_, w') =>
        (Normal (Json 200 (VObj [("clientSecret", pi_client_secret intent_);
                                 ("paymentIntentId", VStr (pi_id intent_))])),
         mkState w' (trace s ++ [Called_paymentIntents_create params]))
    | (Throw e, w') =>
        (Normal (Json 500 (error_body [("message", VStr (message e)); ("code", code e)])),
         mkState w' ((trace s ++ [Called_paymentIntents_create params])
                       ++ [Logged_error "Stripe payment intent error:" e]))
    end.
Proof.
  intros Hb. unfold create_payment_intent, try_catch, bind, lift, call.
  rewrite !(destructure_object _ _ Hb). simpl.
  destruct (paymentIntents_create ext _ (world s)) as [[intent_|e] w']; reflexivity.
Qed.

Lemma create_paypal_order_spec (req : request) (s : state W) (str : string) :
  is_nullish (req_body req) = false ->
  call_toString rt (get_field (req_body req) "amount") = Normal str ->
  create_paypal_order rt ext req s =
    let request_ := mkOrdersCreate "return=representation" "CAPTURE"
                      [mkPurchaseUnit (get_field (req_body req) "currency") str] in
    match orders_create ext request_ (world s) with
    | (Normal res, w') =>
        (Normal (Json 200 (VObj [("orderId", VStr (result_id res))])),
         mkState w' (trace s ++ [Called_orders_create request_]))
    | (Throw e, w') =>
        (Normal (Json 500 (error_body [("message", VStr "Failed to create PayPal order");
                                       ("details", VStr (message e))])),
         mkState w' ((trace s ++ [Called_orders_create request_])
                       ++ [Logged_error "PayPal order creation error:" e]))
    end.
Proof.
  intros Hb Hs. unfold create_paypal_order, try_catch, bind, lift, call.
  rewrite !(destructure_object _ _ Hb), Hs. simpl.
  destruct (orders_create ext _ (world s)) as [[res|e] w']; reflexivity.
Qed.

Lemma capture_paypal_payment_spec (req : request) (s : state W) :
  is_nullish (req_body req) = false ->
  capture_paypal_payment ext req s =
    let orderId := get_field (req_body req) "orderId" in
    let failed (e : js_error) (s1 : state W) :=
      (Normal (Json 500 (error_body [("message", VStr "Failed to capture PayPal payment");
                                     ("details", VStr (message e))])),
       mkState (world s1) (trace s1 ++ [Logged_error "PayPal payment capture error:" e])) in
    match new_OrdersCaptureRequest ext orderId with
    | Some e => failed e s
    | None =>
    match orders_capture ext orderId (world s) with
    | (Throw e, w1) => failed e (mkState w1 (trace s ++ [Called_orders_capture orderId]))
    | (Normal capture, w1) =>
        let s1 := mkState w1 (trace s ++ [Called_orders_capture orderId]) in
        if String.eqb (result_status capture) "COMPLETED" then
          match read_prop (req_user req) "id" with
          | Throw e => failed e s1
          | Normal user_id =>
              let o := mkOrder user_id orderId "paypal" "confirmed" in
              match createOrder ext o w1 with
              | (Normal _, w2) =>
                  (Normal (Json 200 (VObj [("success", VBool true);
                                           ("captureId", VStr (result_id capture))])),
                   mkState w2 (trace s1 ++ [Called_createOrder o]))
              | (Throw e, w2) => failed e (mkState w2 (trace s1 ++ [Called_createOrder o]))
              end
          end
        else failed (Error "Payment not completed") s1
    end
    end.
Proof.
  intros Hb. unfold capture_paypal_payment, try_catch, bind, lift, call, throw, ret.
  rewrite (destructure_object _ _ Hb). simpl.
  destruct (new_OrdersCaptureRequest ext _) as [e0|]; [reflexivity|].
  destruct (orders_capture ext _ (world s)) as [[capture|e] w1]; simpl; [|reflexivity].
  destruct (String.eqb (result_status capture) "COMPLETED"); simpl; [|reflexivity].
  destruct (read_prop (req_user req) "id") as [user_id|e]; simpl; [|reflexivity].
  destruct (createOrder ext _ w1) as [[u|e] w2]; reflexivity.
Qed.

Lemma capture_paypal_payment_no_body (req : request) (s : state W) :
  is_nullish (req_body req) = true ->
  capture_paypal_payment ext req s =
    (Normal (Json 500 (error_body
               [("message", VStr "Failed to capture PayPal payment");
                ("details",
                 VStr ("Cannot destructure property 'orderId' of 'req.body' as it is "
                         ++ nullish_word (req_body req) ++ "."))])),
     mkState (world s)
       (trace s ++ [Logged_error "PayPal payment capture error:"
                      (TypeError ("Cannot destructure property 'orderId' of 'req.body' as it is "
                                    ++ nullish_word (req_body req) ++ "."))])).
Proof.
  intros Hb. unfold capture_paypal_payment, try_catch, bind, lift, destructure.
  rewrite Hb. reflexivity.
Qed.

(** C7: for a valid card request (one the validation middleware passes on),
    the handler answers {clientSecret, paymentIntentId} of the intent the
    vendor created; when the vendor call throws it answers 500 with the
    vendor's message and code unchanged, after that single call. *)
Theorem create_payment_intent_outcome (req : request) (s0 s : state W) :
  get_field (req_body req) "method" = VStr "card" ->
  fst (validatePayment rt ext env req s0) = Normal (Next req) ->
  (forall intent_ w',
      paymentIntents_create ext
        (mkIntentParams (get_field (req_body req) "amount")
                        (get_field (req_body req) "currency")
                        (get_field (req_body req) "paymentMethodId")
                        true (return_url env)) (world s) = (Normal intent_, w') ->
      create_payment_intent ext env req s =
        (Normal (Json 200 (VObj [("clientSecret", pi_client_secret intent_);
                                 ("paymentIntentId", VStr (pi_id intent_))])),
         mkState w' (trace s ++ [Called_paymentIntents_create
                        (mkIntentParams (get_field (req_body req) "amount")
                                        (get_field (req_body req) "currency")
                                        (get_field (req_body req) "paymentMethodId")
                                        true (return_url env))])))
  /\ (forall e w',
      paymentIntents_create ext
        (mkIntentParams (get_field (req_body req) "amount")
                        (get_field (req_body req) "currency")
                        (get_field (req_body req) "paymentMethodId")
                        true (return_url env)) (world s) = (Throw e, w') ->
      create_payment_intent ext env req s =
        (Normal (Json 500 (error_body [("message", VStr (message e)); ("code", code e)])),
         mkState w' (trace s ++ [Called_paymentIntents_create
                        (mkIntentParams (get_field (req_body req) "amount")
                                        (get_field (req_body req) "currency")
                                        (get_field (req_body req) "paymentMethodId")
                                        true (return_url env));
                      Logged_error "Stripe payment intent error:" e]))).
Proof.
  intros _ Hv. destruct (validatePayment_next _ _ _ Hv) as [_ Hb].
  split; intros x w' Hc; rewrite (create_payment_intent_spec _ s Hb); simpl;
    rewrite Hc; [reflexivity|]. rewrite <- app_assoc. reflexivity.
Qed.

(** C8: for a request with a numeric amount and a currency, the handler sends
    the vendor a create-order request asking for the full representation,
    with intent CAPTURE and one purchase unit whose value is the string form
    of the amount; on success it answers {orderId} only, and when the vendor
    throws it answers 500 "Failed to create PayPal order" with the error's
    message as details. *)
Theorem create_paypal_order_outcome (req : request) (s : state W) (n : number) :
  get_field (req_body req) "amount" = VNum n ->
  (forall res w',
      orders_create ext
        (mkOrdersCreate "return=representation" "CAPTURE"
           [mkPurchaseUnit (get_field (req_body req) "currency") (number_to_string rt n)])
        (world s) = (Normal res, w') ->
      create_paypal_order rt ext req s =
        (Normal (Json 200 (VObj [("orderId", VStr (result_id res))])),
         mkState w' (trace s ++ [Called_orders_create
           (mkOrdersCreate "return=representation" "CAPTURE"
              [mkPurchaseUnit (get_field (req_body req) "currency")
                              (number_to_string rt n)])])))
  /\ (forall e w',
      orders_create ext
        (mkOrdersCreate "return=representation" "CAPTURE"
           [mkPurchaseUnit (get_field (req_body req) "currency") (number_to_string rt n)])
        (world s) = (Throw e, w') ->
      create_paypal_order rt ext req s =
        (Normal (Json 500 (error_body [("message", VStr "Failed to create PayPal order");
                                       ("details", VStr (message e))])),
         mkState w' (trace s ++ [Called_orders_create
           (mkOrdersCreate "return=representation" "CAPTURE"
              [mkPurchaseUnit (get_field (req_body req) "currency")
                              (number_to_string rt n)]);
           Logged_error "PayPal order creation error:" e]))).
Proof.
  intros Ha.
  assert (Hb : is_nullish (req_body req) = false).
  { destruct (is_nullish (req_body req)) eqn:E; [|reflexivity].
    rewrite (get_field_nullish _ _ E) in Ha. discriminate. }
  assert (Hs : call_toString rt (get_field (req_body req) "amount")
               = Normal (number_to_string rt n)).
  { rewrite Ha. reflexivity. }
  split; intros x w' Hc; rewrite (create_paypal_order_spec _ s _ Hb Hs); simpl;
    rewrite Hc; [reflexivity|]. rewrite <- app_assoc. reflexivity.
Qed.

Lemma read_prop_object (v : value) (k : string) :
  is_nullish v = false -> read_prop v k = Normal (get_field v k).
Proof. intros H. unfold read_prop. rewrite H. reflexivity. Qed.

(** What every run of the capture handler looks like: an answer 200 or 500
    and no validation rule run. *)
Lemma capture_paypal_payment_shape (req : request) (s : state W) :
  exists st b w tl,
    capture_paypal_payment ext req s = (Normal (Json st b), mkState w (trace s ++ tl))
    /\ (st = 200%Z \/ st = 500%Z)
    /\ validation_runs tl = [].
Proof.
  destruct (is_nullish (req_body req)) eqn:Hb.
  - rewrite (capture_paypal_payment_no_body _ s Hb).
    eexists _, _, _, _. split; [reflexivity|]. split; [right; reflexivity|]. reflexivity.
  - rewrite (capture_paypal_payment_spec _ s Hb). simpl.
    destruct (new_OrdersCaptureRequest ext _) as [e0|];
      [| destruct (orders_capture ext _ (world s)) as [[capture|e] w1];
         [ destruct (String.eqb (result_status capture) "COMPLETED");
           [ destruct (read_prop (req_user req) "id") as [user_id|e];
             [ destruct (createOrder ext _ w1) as [[u|e] w2] |] |] |] ];
      simpl; rewrite <- ?app_assoc; simpl;
      eexists _, _, _, _; (split; [reflexivity|]);
      (split; [solve [left; reflexivity | right; reflexivity] | reflexivity]).
Qed.

(** C2 (amended): when the capture request is built and the vendor capture
    returns a result whose status is
    exactly COMPLETED, the handler hands exactly one order {userId of the
    authenticated caller, paymentId the orderId, paypal, confirmed} to
    [createOrder]; it answers {success: true, captureId} when that call
    returns and 500 when it throws.  For any other status no order is handed
    over and the answer is 500. *)
Theorem capture_paypal_payment_outcome (req : request) (s : state W)
        (capture : paypal_result) (w1 : W) :
  is_nullish (req_body req) = false ->
  is_nullish (req_user req) = false ->
  new_OrdersCaptureRequest ext (get_field (req_body req) "orderId") = None ->
  orders_capture ext (get_field (req_body req) "orderId") (world s) = (Normal capture, w1) ->
  (result_status capture = "COMPLETED" ->
   created_orders (trace (snd (capture_paypal_payment ext req s))) =
     (created_orders (trace s)
        ++ [mkOrder (get_field (req_user req) "id") (get_field (req_body req) "orderId")
                    "paypal" "confirmed"])%list
   /\ (forall u w2,
         createOrder ext
           (mkOrder (get_field (req_user req) "id") (get_field (req_body req) "orderId")
                    "paypal" "confirmed") w1 = (Normal u, w2) ->
         fst (capture_paypal_payment ext req s) =
           Normal (Json 200 (VObj [("success", VBool true);
                                   ("captureId", VStr (result_id capture))])))
   /\ (forall e w2,
         createOrder ext
           (mkOrder (get_field (req_user req) "id") (get_field (req_body req) "orderId")
                    "paypal" "confirmed") w1 = (Throw e, w2) ->
         fst (capture_paypal_payment ext req s) =
           Normal (Json 500 (error_body
                     [("message", VStr "Failed to capture PayPal payment");
                      ("details", VStr (message e))]))))
  /\ (result_status capture <> "COMPLETED" ->
      created_orders (trace (snd (capture_paypal_payment ext req s))) = created_orders (trace s)
      /\ fst (capture_paypal_payment ext req s) =
           Normal (Json 500 (error_body
                     [("message", VStr "Failed to capture PayPal payment");
                      ("details", VStr "Payment not completed")]))).
Proof.
  intros Hb Hu Hn Hc.
  rewrite (capture_paypal_payment_spec _ s Hb). simpl. rewrite Hn, Hc.
  rewrite (read_prop_object _ _ Hu).
  split.
  - intros Hst. apply String.eqb_eq in Hst. rewrite Hst.
    destruct (createOrder ext _ w1) as [[u|e] w2] eqn:Ho; simpl.
    + rewrite !created_orders_app. simpl. rewrite app_nil_r.
      split; [reflexivity|]. split; [reflexivity|]. intros e w2' Habs. discriminate.
    + rewrite !created_orders_app. simpl. rewrite !app_nil_r.
      split; [reflexivity|]. split; [intros u w2' Habs; discriminate|].
      intros e' w2' Heq. injection Heq as -> _. reflexivity.
  - intros Hst. apply String.eqb_neq in Hst. rewrite Hst. simpl.
    rewrite !created_orders_app. simpl. rewrite !app_nil_r. auto.
Qed.

(** C10 (amended): the capture route mounts the authentication middleware
    only.  Once authentication passes the request on, the handler runs at
    once: no validation rule runs and the answer is 200 or 500 (never the
    400 or 403 of the validation middleware).  With a body, the handler
    builds the capture request from the body's [orderId], whatever that value
    is; when building it throws, the answer is 500 and no vendor is called;
    otherwise the vendor capture call on that [orderId] is made first, in the
    world the request arrived in, and its result decides the rest. *)
Theorem capture_route_skips_validation :
  ~ In use_validatePayment (mounted post_capture_paypal_payment)
  /\ (forall req0 s0 req w,
        protectRoute ext req0 (world s0) = (Next req, w) ->
        serve rt ext env post_capture_paypal_payment req0 s0 =
          capture_paypal_payment ext req (mkState w (trace s0)))
  /\ (forall req s,
        validation_runs (trace (snd (capture_paypal_payment ext req s)))
          = validation_runs (trace s)
        /\ (status_of_completion (fst (capture_paypal_payment ext req s)) = Some 200%Z
            \/ status_of_completion (fst (capture_paypal_payment ext req s)) = Some 500%Z))
  /\ (forall req s e,
        is_nullish (req_body req) = false ->
        new_OrdersCaptureRequest ext (get_field (req_body req) "orderId") = Some e ->
        capture_paypal_payment ext req s =
          (Normal (Json 500 (error_body
                     [("message", VStr "Failed to capture PayPal payment");
                      ("details", VStr (message e))])),
           mkState (world s)
             (trace s ++ [Logged_error "PayPal payment capture error:" e])))
  /\ (forall req s,
        is_nullish (req_body req) = false ->
        new_OrdersCaptureRequest ext (get_field (req_body req) "orderId") = None ->
        (forall e w1,
            orders_capture ext (get_field (req_body req) "orderId") (world s)
              = (Throw e, w1) ->
            capture_paypal_payment ext req s =
              (Normal (Json 500 (error_body
                         [("message", VStr "Failed to capture PayPal payment");
                          ("details", VStr (message e))])),
               mkState w1
                 (trace s ++ [Called_orders_capture (get_field (req_body req) "orderId");
                              Logged_error "PayPal payment capture error:" e])))
        /\ (forall capture w1,
            orders_capture ext (get_field (req_body req) "orderId") (world s)
              = (Normal capture, w1) ->
            result_status capture <> "COMPLETED" ->
            capture_paypal_payment ext req s =
              (Normal (Json 500 (error_body
                         [("message", VStr "Failed to capture PayPal payment");
                          ("details", VStr "Payment not completed")])),
               mkState w1
                 (trace s ++ [Called_orders_capture (get_field (req_body req) "orderId");
                              Logged_error "PayPal payment capture error:"
                                (Error "Payment not completed")])))
        /\ (forall capture w1 r w2,
            orders_capture ext (get_field (req_body req) "orderId") (world s)
              = (Normal capture, w1) ->
            result_status capture = "COMPLETED" ->
            is_nullish (req_user req) = false ->
            createOrder ext
              (mkOrder (get_field (req_user req) "id") (get_field (req_body req) "orderId")
                       "paypal" "confirmed") w1 = (r, w2) ->
            world (snd (capture_paypal_payment ext req s)) = w2
            /\ exists rest,
                trace (snd (capture_paypal_payment ext req s)) =
                  (trace s ++ Called_orders_capture (get_field (req_body req) "orderId")
                     :: Called_createOrder
                          (mkOrder (get_field (req_user req) "id")
                                   (get_field (req_body req) "orderId")
                                   "paypal" "confirmed") :: rest)%list)).
Proof.
  split; [|split; [|split; [|split]]].
  - simpl. intros [H|[]]. discriminate H.
  - intros req0 s0 req w Hp. unfold serve, serve_with. simpl. unfold bind.
    rewrite Hp. reflexivity.
  - intros req s.
    destruct (capture_paypal_payment_shape req s) as (st & b & w & tl & E & Hst & Hv).
    rewrite E. simpl. split.
    + rewrite validation_runs_app, Hv. apply app_nil_r.
    + destruct Hst as [-> | ->]; [left | right]; reflexivity.
  - intros req s e Hb Hn.
    rewrite (capture_paypal_payment_spec _ s Hb). cbv zeta. rewrite Hn. reflexivity.
  - intros req s Hb Hn. split; [|split].
    + intros e w1 Hc.
      rewrite (capture_paypal_payment_spec _ s Hb). cbv zeta. rewrite Hn, Hc.
      simpl. rewrite <- app_assoc. reflexivity.
    + intros capture w1 Hc Hst. apply String.eqb_neq in Hst.
      rewrite (capture_paypal_payment_spec _ s Hb). cbv zeta. rewrite Hn, Hc, Hst.
      simpl. rewrite <- app_assoc. reflexivity.
    + intros capture w1 r w2 Hc Hst Hu Ho. apply String.eqb_eq in Hst.
      rewrite (capture_paypal_payment_spec _ s Hb). cbv zeta.
      rewrite Hn, Hc, Hst, (read_prop_object _ _ Hu), Ho.
      destruct r as [u|e]; simpl; rewrite <- ?app_assoc; simpl;
        (split; [reflexivity | eexists; reflexivity]).
Qed.

End Properties.

(** * The theorems on the concrete deployment *)

Lemma webhook_invalid_signature_witness :
  constructEvent Demo.collab (req_body Demo.forged_delivery)
    (header Demo.forged_delivery "stripe-signature")
    (STRIPE_WEBHOOK_SECRET Demo.production) (world Demo.all_up) = Throw Demo.bad_signature
  /\ status_of_completion
       (fst (webhook Demo.collab Demo.production Demo.forged_delivery Demo.all_up))
     = Some 400%Z
  /\ created_orders
       (trace (snd (webhook Demo.collab Demo.production Demo.forged_delivery Demo.all_up)))
     = [].
Proof.
  split; [reflexivity|].
  exact (proj2 (webhook_invalid_signature Demo.collab Demo.production
                  Demo.forged_delivery Demo.all_up Demo.bad_signature eq_refl)).
Defined.

(** C2, as stated, fails when the order controller throws: the capture is
    COMPLETED, [createOrder] is called, and the answer is 500. *)
Lemma capture_completed_store_down_counterexample :
  fst (orders_capture Demo.collab (get_field (req_body Demo.capture_request) "orderId")
         (world Demo.store_down))
    = Normal (mkPaypalResult "ORDER-1" "COMPLETED")
  /\ created_orders
       (trace (snd (capture_paypal_payment Demo.collab Demo.capture_request Demo.store_down)))
     = [mkOrder (VStr "user_1") (VStr "ORDER-1") "paypal" "confirmed"]
  /\ fst (capture_paypal_payment Demo.collab Demo.capture_request Demo.store_down)
     = Normal (Json 500 (error_body [("message", VStr "Failed to capture PayPal payment");
                                     ("details", VStr "order store unavailable")]))
  /\ fst (capture_paypal_payment Demo.collab Demo.capture_request Demo.store_down)
     <> Normal (Json 200 (VObj [("success", VBool true); ("captureId", VStr "ORDER-1")])).
Proof.
  split; [reflexivity|]. split; [reflexivity|]. split; [reflexivity|].
  vm_compute. discriminate.
Qed.

Lemma capture_paypal_payment_outcome_witness :
  is_nullish (req_body Demo.capture_request) = false
  /\ is_nullish (req_user Demo.capture_request) = false
  /\ new_OrdersCaptureRequest Demo.collab
       (get_field (req_body Demo.capture_request) "orderId") = None
  /\ orders_capture Demo.collab (get_field (req_body Demo.capture_request) "orderId")
       (world Demo.all_up)
     = (Normal (mkPaypalResult "ORDER-1" "COMPLETED"), world Demo.all_up)
  /\ created_orders
       (trace (snd (capture_paypal_payment Demo.collab Demo.capture_request Demo.all_up)))
     = [mkOrder (VStr "user_1") (VStr "ORDER-1") "paypal" "confirmed"].
Proof.
  split; [reflexivity|]. split; [reflexivity|]. split; [reflexivity|].
  split; [reflexivity|].
  exact (proj1 (proj1 (capture_paypal_payment_outcome Demo.collab
                         Demo.capture_request Demo.all_up
                         (mkPaypalResult "ORDER-1" "COMPLETED") (world Demo.all_up)
                         eq_refl eq_refl eq_refl eq_refl) eq_refl)).
Defined.

(** C3, as stated, fails: in production over plain HTTP a request with field
    violations is answered 400, and so is one with an unknown method. *)
Lemma insecure_production_field_errors_counterexample :
  NODE_ENV Demo.production = VStr "production"
  /\ req_secure Demo.insecure_incomplete_request = false
  /\ collect_errors Demo.collab stripePaymentRules
       (req_body Demo.insecure_incomplete_request) <> []
  /\ (exists b,
        fst (validatePayment Demo.runtime Demo.collab Demo.production
               Demo.insecure_incomplete_request Demo.all_up)
        = Normal (Responded (Json 400 (error_body [("message", VStr "Validation error");
                                                   ("details", b)]))))
  /\ fst (validatePayment Demo.runtime Demo.collab Demo.production
            Demo.insecure_bitcoin_request Demo.all_up)
     = Normal (Responded (Json 400 (error_body [("message", VStr "Invalid payment method")]))).
Proof.
  split; [reflexivity|]. split; [reflexivity|].
  split; [vm_compute; discriminate|].
  split; [eexists; vm_compute; reflexivity | reflexivity].
Qed.

Lemma validatePayment_unknown_method_witness :
  destructure (req_body Demo.bitcoin_request) "method" = Normal (VStr "bitcoin")
  /\ validatePayment Demo.runtime Demo.collab Demo.production Demo.bitcoin_request Demo.all_up
     = (Normal (Responded (Json 400 (error_body [("message", VStr "Invalid payment method")]))),
        Demo.all_up).
Proof.
  split; [reflexivity|].
  refine (proj1 (validatePayment_unknown_method Demo.runtime Demo.collab Demo.production
                   Demo.bitcoin_request Demo.all_up (VStr "bitcoin") eq_refl _ _ _));
    discriminate.
Defined.

Lemma validatePayment_amount_out_of_range_witness :
  js_le Demo.runtime (get_field (req_body Demo.zero_amount_request) "amount") (Finite 0)
    = Normal true
  /\ exists b s',
      validatePayment Demo.runtime Demo.collab Demo.production
        Demo.zero_amount_request Demo.all_up = (Normal (Responded (Json 400 b)), s')
      /\ forall h rest,
           run_stack Demo.runtime Demo.collab Demo.production
             (use_validatePayment :: rest) h Demo.zero_amount_request Demo.all_up
           = (Normal (Json 400 b), s').
Proof.
  split; [reflexivity|].
  apply (validatePayment_amount_out_of_range Demo.runtime Demo.collab Demo.production
           Demo.zero_amount_request Demo.all_up).
  left. reflexivity.
Defined.

Lemma webhook_dispatch_witness :
  constructEvent Demo.collab (req_body Demo.succeeded_delivery)
    (header Demo.succeeded_delivery "stripe-signature")
    (STRIPE_WEBHOOK_SECRET Demo.production) (world Demo.all_up)
    = Normal (mkEvent "payment_intent.succeeded" Demo.intent_1)
  /\ webhook Demo.collab Demo.production Demo.succeeded_delivery Demo.all_up
     = (Normal (Json 200 (VObj [("received", VBool true)])),
        mkState (Demo.mkWorld [mkOrder (VStr "user_7") (VStr "pi_1") "card" "confirmed"]
                              true true)
                [Called_createOrder (mkOrder (VStr "user_7") (VStr "pi_1") "card" "confirmed")])
  /\ fst (webhook Demo.collab Demo.production Demo.succeeded_delivery Demo.store_down)
     = Normal (Json 500 (VObj [("error", VStr "Webhook processing failed")])).
Proof.
  split; [reflexivity|]. split.
  - exact (proj1 (proj1 (webhook_dispatch Demo.collab Demo.production
                           Demo.succeeded_delivery Demo.all_up
                           (mkEvent "payment_intent.succeeded" Demo.intent_1) eq_refl)
                        eq_refl)
                 tt (Demo.mkWorld [mkOrder (VStr "user_7") (VStr "pi_1") "card" "confirmed"]
                                  true true)
                 eq_refl).
  - exact (f_equal fst
             (proj1 (proj2 (proj1 (webhook_dispatch Demo.collab Demo.production
                                     Demo.succeeded_delivery Demo.store_down
                                     (mkEvent "payment_intent.succeeded" Demo.intent_1)
                                     eq_refl)
                                  eq_refl))
                    (Error "order store unavailable") (world Demo.store_down) eq_refl)).
Defined.

Lemma create_payment_intent_outcome_witness :
  get_field (req_body Demo.card_request) "method" = VStr "card"
  /\ fst (validatePayment Demo.runtime Demo.collab Demo.production
            Demo.card_request Demo.all_up) = Normal (Next Demo.card_request)
  /\ fst (create_payment_intent Demo.collab Demo.production Demo.card_request Demo.all_up)
     = Normal (Json 200 (VObj [("clientSecret", VStr "pi_1_secret_x");
                               ("paymentIntentId", VStr "pi_1")]))
  /\ fst (create_payment_intent Demo.collab Demo.production Demo.card_request Demo.vendor_down)
     = Normal (Json 500 (error_body [("message", VStr "Your card was declined.");
                                     ("code", VStr "card_declined")])).
Proof.
  split; [reflexivity|]. split; [reflexivity|]. split.
  - exact (f_equal fst
             (proj1 (create_payment_intent_outcome Demo.runtime Demo.collab Demo.production
                       Demo.card_request Demo.all_up Demo.all_up eq_refl eq_refl)
                    Demo.intent_1 (world Demo.all_up) eq_refl)).
  - exact (f_equal fst
             (proj2 (create_payment_intent_outcome Demo.runtime Demo.collab Demo.production
                       Demo.card_request Demo.all_up Demo.vendor_down eq_refl eq_refl)
                    Demo.declined (world Demo.vendor_down) eq_refl)).
Defined.

Lemma create_paypal_order_outcome_witness :
  get_field (req_body Demo.paypal_request) "amount" = VNum (Finite (inject_Z 25))
  /\ create_paypal_order Demo.runtime Demo.collab Demo.paypal_request Demo.all_up
     = (Normal (Json 200 (VObj [("orderId", VStr "ORDER-1")])),
        mkState (world Demo.all_up)
          [Called_orders_create
             (mkOrdersCreate "return=representation" "CAPTURE"
                [mkPurchaseUnit (VStr "eur") "25"])]).
Proof.
  split; [reflexivity|].
  exact (proj1 (create_paypal_order_outcome Demo.runtime Demo.collab
                  Demo.paypal_request Demo.all_up (Finite (inject_Z 25)) eq_refl)
               (mkPaypalResult "ORDER-1" "CREATED") (world Demo.all_up) eq_refl).
Defined.

Lemma webhook_replay_witness :
  constructEvent Demo.collab (req_body Demo.succeeded_delivery)
    (header Demo.succeeded_delivery "stripe-signature")
    (STRIPE_WEBHOOK_SECRET Demo.production) (world Demo.all_up)
    = Normal (mkEvent "payment_intent.succeeded" Demo.intent_1)
  /\ world (snd (webhook Demo.collab Demo.production Demo.succeeded_delivery
                   (snd (webhook Demo.collab Demo.production
                           Demo.succeeded_delivery Demo.all_up))))
     = Demo.mkWorld [mkOrder (VStr "user_7") (VStr "pi_1") "card" "confirmed";
                     mkOrder (VStr "user_7") (VStr "pi_1") "card" "confirmed"] true true
  /\ created_orders
       (trace (snd (webhook Demo.collab Demo.production Demo.succeeded_delivery
                      (snd (webhook Demo.collab Demo.production
                              Demo.succeeded_delivery Demo.all_up)))))
     = [mkOrder (VStr "user_7") (VStr "pi_1") "card" "confirmed";
        mkOrder (VStr "user_7") (VStr "pi_1") "card" "confirmed"].
Proof.
  split; [reflexivity|]. split.
  - exact (proj1 (proj2 (proj1 (webhook_replay Demo.collab Demo.production
                                  Demo.succeeded_delivery Demo.all_up
                                  (mkEvent "payment_intent.succeeded" Demo.intent_1)
                                  eq_refl eq_refl eq_refl)
                               (Normal tt)
                               (Demo.mkWorld
                                  [mkOrder (VStr "user_7") (VStr "pi_1") "card" "confirmed"]
                                  true true)
                               (Normal tt)
                               (Demo.mkWorld
                                  [mkOrder (VStr "user_7") (VStr "pi_1") "card" "confirmed";
                                   mkOrder (VStr "user_7") (VStr "pi_1") "card" "confirmed"]
                                  true true)
                               eq_refl eq_refl))).
  - exact (proj2 (proj2 (proj2 (webhook_replay Demo.collab Demo.production
                                  Demo.succeeded_delivery Demo.all_up
                                  (mkEvent "payment_intent.succeeded" Demo.intent_1)
                                  eq_refl eq_refl eq_refl)))).
Defined.

(** C10, as stated, fails for an order id that is an object without a
    primitive form: building the capture request throws, the vendor is not
    called and the answer is 500. *)
Lemma capture_object_order_id_counterexample :
  is_nullish (req_body Demo.object_order_id_request) = false
  /\ get_field (req_body Demo.object_order_id_request) "orderId"
     = VObj [("toString", VNum (Finite 1))]
  /\ vendor_calls
       (trace (snd (capture_paypal_payment Demo.collab
                      Demo.object_order_id_request Demo.all_up)))
     = []
  /\ capture_paypal_payment Demo.collab Demo.object_order_id_request Demo.all_up
     = (Normal (Json 500 (error_body
                  [("message", VStr "Failed to capture PayPal payment");
                   ("details", VStr "Cannot convert object to primitive value")])),
        mkState (world Demo.all_up)
          [Logged_error "PayPal payment capture error:"
             (TypeError "Cannot convert object to primitive value")])
  /\ ~ (exists rest,
          trace (snd (capture_paypal_payment Demo.collab
                        Demo.object_order_id_request Demo.all_up))
          = (trace Demo.all_up
               ++ Called_orders_capture
                    (get_field (req_body Demo.object_order_id_request) "orderId")
               :: rest)%list).
Proof.
  split; [reflexivity|]. split; [reflexivity|]. split; [reflexivity|].
  split; [reflexivity|].
  intros [rest H]. vm_compute in H. discriminate H.
Qed.

Lemma capture_route_skips_validation_witness :
  protectRoute Demo.collab Demo.capture_request (world Demo.all_up)
    = (Next Demo.capture_request, world Demo.all_up)
  /\ serve Demo.runtime Demo.collab Demo.production post_capture_paypal_payment
       Demo.capture_request Demo.all_up
     = capture_paypal_payment Demo.collab Demo.capture_request Demo.all_up
  /\ new_OrdersCaptureRequest Demo.collab
       (get_field (req_body Demo.numeric_order_id_request) "orderId") = None
  /\ capture_paypal_payment Demo.collab Demo.numeric_order_id_request Demo.all_up
     = (Normal (Json 500 (error_body
                  [("message", VStr "Failed to capture PayPal payment");
                   ("details", VStr "Payment not completed")])),
        mkState (world Demo.all_up)
          (trace Demo.all_up
             ++ [Called_orders_capture
                   (get_field (req_body Demo.numeric_order_id_request) "orderId");
                 Logged_error "PayPal payment capture error:"
                   (Error "Payment not completed")])).
Proof.
  split; [reflexivity|]. split.
  - exact (proj1 (proj2 (capture_route_skips_validation Demo.runtime Demo.collab
                           Demo.production))
                 Demo.capture_request Demo.all_up Demo.capture_request (world Demo.all_up)
                 eq_refl).
  - split; [reflexivity|].
    refine (proj1 (proj2 (proj2 (proj2 (proj2 (proj2 (capture_route_skips_validation
                                                        Demo.runtime Demo.collab
                                                        Demo.production))))
                                  Demo.numeric_order_id_request Demo.all_up
                                  eq_refl eq_refl))
                  (mkPaypalResult "ORDER-1" "PENDING") (world Demo.all_up) eq_refl _).
    discriminate.
Defined.

(** * Further properties of the middleware, the handlers and the log format *)

Lemma validation_runs_map (rules : list validation_chain) :
  validation_runs (map Ran_validation rules) = map Ran_validation rules.
Proof. induction rules as [|c rest IH]; simpl; [reflexivity|]. f_equal. exact IH. Qed.

Lemma js_le_finite_false (rt : js_runtime) (q k : Q) :
  js_le rt (VNum (Finite q)) (Finite k) = Normal false <-> (k < q)%Q.
Proof.
  unfold js_le; simpl. destruct (Qle_bool q k) eqn:E; simpl.
  - apply Qle_bool_iff in E. split; [discriminate|]. intros H.
    exfalso. apply (Qlt_not_le _ _ H E).
  - split; [|reflexivity]. intros _. apply Qnot_le_lt. intros H.
    apply Qle_bool_iff in H. congruence.
Qed.

Lemma js_gt_finite_false (rt : js_runtime) (q k : Q) :
  js_gt rt (VNum (Finite q)) (Finite k) = Normal false <-> (q <= k)%Q.
Proof.
  unfold js_gt; simpl. destruct (Qle_bool q k) eqn:E; simpl.
  - apply Qle_bool_iff in E. tauto.
  - split; [discriminate|]. intros H. apply Qle_bool_iff in H. congruence.
Qed.

Section Further.
Context {W : Type}.
Variable rt : js_runtime.
Variable ext : collaborators W.
Variable env : process_env.

(** The middleware, path by path. *)
Lemma validatePayment_cases (req : request) (s : state W) :
  validatePayment rt ext env req s =
    let failed (e : js_error) (s1 : state W) :=
      (Normal (Responded (Json 500 (error_body
                 [("message", VStr "Payment validation failed");
                  ("details", VStr (message e))]))),
       mkState (world s1) (trace s1 ++ [Logged_error "Payment validation error:" e])) in
    match destructure (req_body req) "method" with
    | Throw e => failed e s
    | Normal method =>
        match select_rules method with
        | None =>
            (Normal (Responded (Json 400 (error_body
                       [("message", VStr "Invalid payment method")]))), s)
        | Some rules =>
            let s1 := mkState (world s) (trace s ++ map Ran_validation rules) in
            match collect_errors ext rules (req_body req) with
            | _ :: _ =>
                (Normal (Responded (Json 400 (error_body
                           [("message", VStr "Validation error");
                            ("details", VArr (collect_errors ext rules (req_body req)))]))),
                 s1)
            | [] =>
                let rejected :=
                  (Normal (Responded (Json 400 (error_body
                             [("message", VStr "Invalid amount");
                              ("details", VStr "Amount must be between 0 and 999,999")]))),
                   s1) in
                match js_le rt (get_field (req_body req) "amount") (Finite 0) with
                | Throw e => failed e s1
                | Normal true => rejected
                | Normal false =>
                    match js_gt rt (get_field (req_body req) "amount")
                                (Finite (inject_Z 999999)) with
                    | Throw e => failed e s1
                    | Normal true => rejected
                    | Normal false =>
                        (Normal
                           (if negb (req_secure req)
                               && strict_eq_str (NODE_ENV env) "production"
                            then Responded (Json 403 (error_body
                                   [("message", VStr "Payment must be processed over HTTPS")]))
                            else Next req),
                         s1)
                    end
                end
            end
        end
    end.
Proof.
  unfold validatePayment, try_catch, bind, lift.
  destruct (destructure (req_body req) "method") as [method|e] eqn:Hd; [|reflexivity].
  destruct (destructure_normal _ _ _ Hd) as [Hb _].
  destruct (select_rules method) as [rules|]; [|reflexivity].
  rewrite run_rules_spec.
  destruct (collect_errors ext rules (req_body req)) as [|e0 errs]; [|reflexivity].
  simpl. rewrite (destructure_object _ _ Hb).
  destruct (js_le rt _ _) as [[|]|e]; simpl; try reflexivity.
  destruct (js_gt rt _ _) as [[|]|e]; simpl; try reflexivity.
  destruct (negb (req_secure req) && strict_eq_str (NODE_ENV env) "production");
    reflexivity.
Qed.

Ltac split_paths :=
  repeat match goal with
         | |- context [match ?x with _ => _ end] =>
             lazymatch x with
             | context [match _ with _ => _ end] => fail
             | _ => destruct x eqn:?; simpl
             end
         end.

Ltac tidy_trace :=
  simpl;
  rewrite ?vendor_calls_app, ?created_orders_app, ?validation_runs_app,
          ?vendor_calls_validation, ?created_orders_validation, ?validation_runs_map;
  simpl; rewrite ?app_nil_r.

(** X1: the validation middleware never throws: it either calls [next()]
    with the request it received or answers 400, 403 or 500. *)
Theorem validatePayment_always_answers (req : request) (s : state W) :
  exists o s',
    validatePayment rt ext env req s = (Normal o, s')
    /\ (o = Next req
        \/ exists b, o = Responded (Json 400 b) \/ o = Responded (Json 403 b)
                     \/ o = Responded (Json 500 b)).
Proof.
  rewrite validatePayment_cases. cbv zeta.
  split_paths; eexists _, _; (split; [reflexivity|]);
    first [ left; reflexivity
          | right; eexists; left; reflexivity
          | right; eexists; right; left; reflexivity
          | right; eexists; right; right; reflexivity ].
Qed.

(** All the middleware does is append validation runs and at most one log
    entry to the trace. *)
Lemma validatePayment_appends (req : request) (s : state W) :
  exists o tl,
    validatePayment rt ext env req s = (Normal o, mkState (world s) (trace s ++ tl))
    /\ vendor_calls tl = [] /\ created_orders tl = [].
Proof.
  rewrite validatePayment_cases. cbv zeta.
  split_paths; rewrite <- ?app_assoc;
    try (eexists _, _; split; [reflexivity|]; tidy_trace; auto).
  all: exists (Responded (Json 400 (error_body [("message", VStr "Invalid payment method")]))), [];
    rewrite app_nil_r; destruct s; auto.
Qed.

(** X2: the validation middleware touches nothing outside the process: the
    outside world is unchanged and no vendor call and no [createOrder] call
    is made. *)
Theorem validatePayment_frame (req : request) (s : state W) :
  world (snd (validatePayment rt ext env req s)) = world s
  /\ vendor_calls (trace (snd (validatePayment rt ext env req s))) = vendor_calls (trace s)
  /\ created_orders (trace (snd (validatePayment rt ext env req s)))
     = created_orders (trace s).
Proof.
  destruct (validatePayment_appends req s) as (o & tl & E & Hv & Ho).
  rewrite E. simpl. rewrite vendor_calls_app, created_orders_app, Hv, Ho, !app_nil_r.
  auto.
Qed.

(** X3: a request is passed on exactly when it has a body with a known
    method, the rules of that method report nothing, the amount is neither
    [<= 0] nor [> 999999], and the connection is secure or the deployment is
    not production. *)
Theorem validatePayment_passes_iff (req req' : request) (s : state W) :
  fst (validatePayment rt ext env req s) = Normal (Next req') <->
  req' = req
  /\ is_nullish (req_body req) = false
  /\ (exists rules,
        select_rules (get_field (req_body req) "method") = Some rules
        /\ collect_errors ext rules (req_body req) = [])
  /\ js_le rt (get_field (req_body req) "amount") (Finite 0) = Normal false
  /\ js_gt rt (get_field (req_body req) "amount") (Finite (inject_Z 999999)) = Normal false
  /\ negb (req_secure req) && strict_eq_str (NODE_ENV env) "production" = false.
Proof.
  rewrite validatePayment_cases. cbv zeta. unfold destructure. split.
  - destruct (is_nullish (req_body req)); [discriminate|].
    destruct (select_rules _) as [rules|] eqn:Hm; [|discriminate].
    destruct (collect_errors ext rules (req_body req)) eqn:He; [|discriminate].
    destruct (js_le rt _ _) as [[|]|e]; try discriminate.
    destruct (js_gt rt _ _) as [[|]|e]; try discriminate.
    destruct (negb (req_secure req) && _); [discriminate|].
    simpl. intros H. injection H as <-. repeat split; eauto.
  - intros (-> & Hb & (rules & Hm & He) & Hle & Hgt & Hs).
    rewrite Hb, Hm, He, Hle, Hgt, Hs. reflexivity.
Qed.

(** X4: a request without a body ([undefined] or [null]) is answered 500
    "Payment validation failed" with the TypeError's message, which names
    the body as undefined or as null; the error is logged and no rule is
    run. *)
Theorem validatePayment_missing_body (req : request) (s : state W) :
  is_nullish (req_body req) = true ->
  validatePayment rt ext env req s =
    (Normal (Responded (Json 500 (error_body
               [("message", VStr "Payment validation failed");
                ("details",
                 VStr ("Cannot destructure property 'method' of 'req.body' as it is "
                         ++ match req_body req with
                            | VNull => "null"
                            | _ => "undefined"
                            end ++ "."))]))),
     mkState (world s)
       (trace s ++ [Logged_error "Payment validation error:"
                      (TypeError
                         ("Cannot destructure property 'method' of 'req.body' as it is "
                            ++ match req_body req with
                               | VNull => "null"
                               | _ => "undefined"
                               end ++ "."))])).
Proof.
  intros Hb. rewrite validatePayment_cases. unfold destructure. rewrite Hb. reflexivity.
Qed.

(** X5: once the method is known, every rule of its set is run, in order,
    whatever the rules report; and when they report errors, the 400 answer
    lists the errors of all the rules. *)
Theorem validatePayment_runs_every_rule (req : request) (s : state W)
        (rules : list validation_chain) :
  is_nullish (req_body req) = false ->
  select_rules (get_field (req_body req) "method") = Some rules ->
  validation_runs (trace (snd (validatePayment rt ext env req s)))
    = (validation_runs (trace s) ++ map Ran_validation rules)%list
  /\ (collect_errors ext rules (req_body req) <> [] ->
      fst (validatePayment rt ext env req s) =
        Normal (Responded (Json 400 (error_body
                  [("message", VStr "Validation error");
                   ("details",
                    VArr (flat_map (fun c => validation_run ext c (req_body req)) rules))])))).
Proof.
  intros Hb Hm. rewrite validatePayment_cases. cbv zeta.
  rewrite (destructure_object _ _ Hb), Hm. split.
  - split_paths; tidy_trace; reflexivity.
  - intros He. unfold collect_errors in *.
    destruct (flat_map _ rules) eqn:E; [congruence | reflexivity].
Qed.

(** X6: the 403 is answered only over an insecure connection in production,
    and only to a request whose fields and amount passed. *)
Theorem validatePayment_403_only_insecure_production (req : request) (s : state W)
        (b : value) :
  fst (validatePayment rt ext env req s) = Normal (Responded (Json 403 b)) ->
  req_secure req = false
  /\ NODE_ENV env = VStr "production"
  /\ (exists rules,
        select_rules (get_field (req_body req) "method") = Some rules
        /\ collect_errors ext rules (req_body req) = [])
  /\ js_le rt (get_field (req_body req) "amount") (Finite 0) = Normal false
  /\ js_gt rt (get_field (req_body req) "amount") (Finite (inject_Z 999999)) = Normal false.
Proof.
  rewrite validatePayment_cases. cbv zeta. unfold destructure.
  destruct (is_nullish (req_body req)); [discriminate|].
  destruct (select_rules _) as [rules|] eqn:Hm; [|discriminate].
  destruct (collect_errors ext rules (req_body req)) eqn:He; [|discriminate].
  destruct (js_le rt _ _) as [[|]|e]; try discriminate.
  destruct (js_gt rt _ _) as [[|]|e]; try discriminate.
  destruct (req_secure req); simpl; [discriminate|].
  destruct (strict_eq_str (NODE_ENV env) "production") eqn:Hp; [|discriminate].
  apply strict_eq_str_true in Hp. intros _. repeat split; eauto.
Qed.

(** X7: a request that is passed on with a finite number as amount has
    0 < amount <= 999999, and these are the bounds: when the rules report
    nothing, a finite amount in that range (999999 included) goes on to the
    transport test, and any other finite amount (0 included) is answered 400
    "Invalid amount". *)
Theorem validatePayment_passed_amount_bounds (req : request) (s : state W) (q : Q) :
  get_field (req_body req) "amount" = VNum (Finite q) ->
  (forall req', fst (validatePayment rt ext env req s) = Normal (Next req') ->
                (0 < q)%Q /\ (q <= inject_Z 999999)%Q)
  /\ (forall rules,
        select_rules (get_field (req_body req) "method") = Some rules ->
        collect_errors ext rules (req_body req) = [] ->
        ((0 < q)%Q /\ (q <= inject_Z 999999)%Q ->
         validatePayment rt ext env req s =
           (Normal (if negb (req_secure req) && strict_eq_str (NODE_ENV env) "production"
                    then Responded (Json 403 (error_body
                           [("message", VStr "Payment must be processed over HTTPS")]))
                    else Next req),
            mkState (world s) (trace s ++ map Ran_validation rules)))
        /\ (~ ((0 < q)%Q /\ (q <= inject_Z 999999)%Q) ->
            validatePayment rt ext env req s =
              (Normal (Responded (Json 400 (error_body
                         [("message", VStr "Invalid amount");
                          ("details", VStr "Amount must be between 0 and 999,999")]))),
               mkState (world s) (trace s ++ map Ran_validation rules)))).
Proof.
  intros Ha.
  assert (Hb : is_nullish (req_body req) = false).
  { destruct (is_nullish (req_body req)) eqn:E; [|reflexivity].
    rewrite (get_field_nullish _ _ E) in Ha. discriminate. }
  split.
  - intros req'. rewrite validatePayment_cases. cbv zeta.
    rewrite (destructure_object _ _ Hb).
    destruct (select_rules _) as [rules|]; [|discriminate].
    destruct (collect_errors ext rules (req_body req)); [|discriminate].
    destruct (js_le rt _ _) as [[|]|e] eqn:Hle; try discriminate.
    destruct (js_gt rt _ _) as [[|]|e'] eqn:Hgt; try discriminate.
    intros _. rewrite Ha in Hle, Hgt. split.
    + apply (js_le_finite_false rt). exact Hle.
    + apply (js_gt_finite_false rt). exact Hgt.
  - intros rules Hm He. rewrite validatePayment_cases. cbv zeta.
    rewrite (destructure_object _ _ Hb), Hm, He, Ha. split.
    + intros [Hlo Hhi].
      rewrite (proj2 (js_le_finite_false rt q 0) Hlo).
      rewrite (proj2 (js_gt_finite_false rt q (inject_Z 999999)) Hhi). reflexivity.
    + intros Hn.
      destruct (js_le rt (VNum (Finite q)) (Finite 0)) as [[|]|e] eqn:Hle;
        [reflexivity | | discriminate Hle].
      destruct (js_gt rt (VNum (Finite q)) (Finite (inject_Z 999999))) as [[|]|e] eqn:Hgt;
        [reflexivity | | discriminate Hgt].
      exfalso. apply Hn. split.
      * apply (js_le_finite_false rt). exact Hle.
      * apply (js_gt_finite_false rt). exact Hgt.
Qed.

(** X8: the amount test does not stop an amount whose conversion to a
    number is NaN (a missing amount, for one): both comparisons are false,
    and the request goes on to the transport test. *)
Theorem validatePayment_nan_amount_not_refused (req : request) (s : state W)
        (rules : list validation_chain) :
  is_nullish (req_body req) = false ->
  select_rules (get_field (req_body req) "method") = Some rules ->
  collect_errors ext rules (req_body req) = [] ->
  to_number rt (get_field (req_body req) "amount") = Normal NaN ->
  validatePayment rt ext env req s =
    (Normal (if negb (req_secure req) && strict_eq_str (NODE_ENV env) "production"
             then Responded (Json 403 (error_body
                    [("message", VStr "Payment must be processed over HTTPS")]))
             else Next req),
     mkState (world s) (trace s ++ map Ran_validation rules)).
Proof.
  intros Hb Hm He Hn. rewrite validatePayment_cases. cbv zeta.
  rewrite (destructure_object _ _ Hb), Hm, He.
  unfold js_le, js_gt. rewrite Hn. reflexivity.
Qed.

(** *** Route handlers *)

(** The Google Pay handler, path by path. *)
Lemma create_google_pay_payment_cases (req : request) (s : state W) :
  create_google_pay_payment ext env req s =
    let failed (e : js_error) (s1 : state W) :=
      (Normal (Json 500 (error_body
                 [("message", VStr "Failed to process Google Pay payment");
                  ("details", VStr (message e))])),
       mkState (world s1) (trace s1 ++ [Logged_error "Google Pay payment error:" e])) in
    match destructure (req_body req) "amount" with
    | Throw e => failed e s
    | Normal amount =>
        match read_prop (get_field (req_body req) "paymentData") "token" with
        | Throw e => failed e s
        | Normal token =>
            let mparams := mkMethodParams "card" token in
            match paymentMethods_create ext mparams (world s) with
            | (Throw e, w1) =>
                failed e (mkState w1 (trace s ++ [Called_paymentMethods_create mparams]))
            | (Normal pm, w1) =>
                let params := mkIntentParams amount (get_field (req_body req) "currency")
                                (VStr (pm_id pm)) true (return_url env) in
                let s2 (w2 : W) :=
                  mkState w2 ((trace s ++ [Called_paymentMethods_create mparams])
                                ++ [Called_paymentIntents_create params]) in
                match paymentIntents_create ext params w1 with
                | (Throw e, w2) => failed e (s2 w2)
                | (Normal intent_, w2) =>
                    (Normal (Json 200 (VObj [("success", VBool true);
                                             ("paymentIntentId", VStr (pi_id intent_))])),
                     s2 w2)
                end
            end
        end
    end.
Proof.
  unfold create_google_pay_payment, try_catch, bind, lift, call.
  destruct (destructure (req_body req) "amount") as [amount|e] eqn:Hd; [|reflexivity].
  destruct (destructure_normal _ _ _ Hd) as [Hb ->].
  rewrite !(destructure_object _ _ Hb).
  destruct (read_prop _ "token") as [token|e]; [|reflexivity]. simpl.
  destruct (paymentMethods_create ext _ (world s)) as [[pm|e] w1]; [|reflexivity].
  simpl. destruct (paymentIntents_create ext _ w1) as [[intent_|e] w2]; reflexivity.
Qed.

(** X9: when both vendor calls succeed, the Google Pay handler first
    creates a card payment method from the token, then a confirmed payment
    intent on that payment method, and answers {success, paymentIntentId}. *)
Theorem create_google_pay_payment_success (req : request) (s : state W)
        (pm : payment_method) (intent_ : payment_intent) (w1 w2 : W) :
  is_nullish (req_body req) = false ->
  is_nullish (get_field (req_body req) "paymentData") = false ->
  paymentMethods_create ext
    (mkMethodParams "card" (get_field (get_field (req_body req) "paymentData") "token"))
    (world s) = (Normal pm, w1) ->
  paymentIntents_create ext
    (mkIntentParams (get_field (req_body req) "amount") (get_field (req_body req) "currency")
                    (VStr (pm_id pm)) true (return_url env)) w1 = (Normal intent_, w2) ->
  create_google_pay_payment ext env req s =
    (Normal (Json 200 (VObj [("success", VBool true);
                             ("paymentIntentId", VStr (pi_id intent_))])),
     mkState w2
       (trace s ++
          [Called_paymentMethods_create
             (mkMethodParams "card"
                (get_field (get_field (req_body req) "paymentData") "token"));
           Called_paymentIntents_create
             (mkIntentParams (get_field (req_body req) "amount")
                (get_field (req_body req) "currency") (VStr (pm_id pm)) true
                (return_url env))])).
Proof.
  intros Hb Hd Hm Hi. rewrite create_google_pay_payment_cases. cbv zeta.
  rewrite (destructure_object _ _ Hb), (read_prop_object _ _ Hd), Hm, Hi.
  rewrite <- app_assoc. reflexivity.
Qed.

(** X10: when the payment method was created and the payment intent is
    then refused, the handler answers 500 with the error's message and makes
    no further vendor call: the payment method stays with the vendor. *)
Theorem create_google_pay_payment_intent_refused (req : request) (s : state W)
        (pm : payment_method) (e : js_error) (w1 w2 : W) :
  is_nullish (req_body req) = false ->
  is_nullish (get_field (req_body req) "paymentData") = false ->
  paymentMethods_create ext
    (mkMethodParams "card" (get_field (get_field (req_body req) "paymentData") "token"))
    (world s) = (Normal pm, w1) ->
  paymentIntents_create ext
    (mkIntentParams (get_field (req_body req) "amount") (get_field (req_body req) "currency")
                    (VStr (pm_id pm)) true (return_url env)) w1 = (Throw e, w2) ->
  create_google_pay_payment ext env req s =
    (Normal (Json 500 (error_body
               [("message", VStr "Failed to process Google Pay payment");
                ("details", VStr (message e))])),
     mkState w2
       (trace s ++
          [Called_paymentMethods_create
             (mkMethodParams "card"
                (get_field (get_field (req_body req) "paymentData") "token"));
           Called_paymentIntents_create
             (mkIntentParams (get_field (req_body req) "amount")
                (get_field (req_body req) "currency") (VStr (pm_id pm)) true
                (return_url env));
           Logged_error "Google Pay payment error:" e])).
Proof.
  intros Hb Hd Hm Hi. rewrite create_google_pay_payment_cases. cbv zeta.
  rewrite (destructure_object _ _ Hb), (read_prop_object _ _ Hd), Hm, Hi.
  simpl. rewrite <- !app_assoc. reflexivity.
Qed.

(** X11: when creating the payment method fails, no payment intent is
    requested: that call is the only vendor call, and the answer is 500. *)
Theorem create_google_pay_payment_method_refused (req : request) (s : state W)
        (e : js_error) (w1 : W) :
  is_nullish (req_body req) = false ->
  is_nullish (get_field (req_body req) "paymentData") = false ->
  paymentMethods_create ext
    (mkMethodParams "card" (get_field (get_field (req_body req) "paymentData") "token"))
    (world s) = (Throw e, w1) ->
  create_google_pay_payment ext env req s =
    (Normal (Json 500 (error_body
               [("message", VStr "Failed to process Google Pay payment");
                ("details", VStr (message e))])),
     mkState w1
       (trace s ++
          [Called_paymentMethods_create
             (mkMethodParams "card"
                (get_field (get_field (req_body req) "paymentData") "token"));
           Logged_error "Google Pay payment error:" e])).
Proof.
  intros Hb Hd Hm. rewrite create_google_pay_payment_cases. cbv zeta.
  rewrite (destructure_object _ _ Hb), (read_prop_object _ _ Hd), Hm.
  simpl. rewrite <- !app_assoc. reflexivity.
Qed.

(** X12: a Google Pay request whose body has no [paymentData] (or a null
    one) is answered 500 before any vendor call: reading the token throws a
    TypeError that names the value as undefined or as null. *)
Theorem create_google_pay_payment_no_payment_data (req : request) (s : state W) :
  is_nullish (req_body req) = false ->
  is_nullish (get_field (req_body req) "paymentData") = true ->
  create_google_pay_payment ext env req s =
    (Normal (Json 500 (error_body
               [("message", VStr "Failed to process Google Pay payment");
                ("details",
                 VStr ("Cannot read properties of "
                         ++ match get_field (req_body req) "paymentData" with
                            | VNull => "null"
                            | _ => "undefined"
                            end ++ " (reading 'token')"))])),
     mkState (world s)
       (trace s ++ [Logged_error "Google Pay payment error:"
                      (TypeError
                         ("Cannot read properties of "
                            ++ match get_field (req_body req) "paymentData" with
                               | VNull => "null"
                               | _ => "undefined"
                               end ++ " (reading 'token')"))])).
Proof.
  intros Hb Hd. rewrite create_google_pay_payment_cases. cbv zeta.
  rewrite (destructure_object _ _ Hb). unfold read_prop. rewrite Hd. reflexivity.
Qed.

Ltac run_handler :=
  unfold handler, create_payment_intent, create_paypal_order, capture_paypal_payment,
         create_google_pay_payment, webhook, webhook_with, dispatch,
         handleSuccessfulPayment, handleFailedPayment,
         try_catch, bind, lift, call, emit, ret, throw.

(** X13: every handler catches at its own boundary: it never throws and
    always answers, with status 200 or 500 (the webhook also with 400). *)
Theorem handler_always_answers (r : route) (req : request) (s : state W) :
  exists resp s',
    handler rt ext env r req s = (Normal resp, s')
    /\ (status_of resp = 200%Z \/ status_of resp = 500%Z
        \/ (r = post_webhook /\ status_of resp = 400%Z)).
Proof.
  destruct r; run_handler; split_paths; simpl;
    eexists _, _; (split; [reflexivity|]); simpl; auto.
Qed.

(** X14: what one request can cause.  No handler runs a validation rule;
    the Google Pay handler makes at most two vendor calls, the webhook none
    and the others at most one; only the capture handler and the webhook
    call [createOrder], and at most once. *)
Theorem handler_effect_bounds (r : route) (req : request) (s : state W) :
  validation_runs (trace (snd (handler rt ext env r req s))) = validation_runs (trace s)
  /\ (List.length (vendor_calls (trace (snd (handler rt ext env r req s))))
      <= List.length (vendor_calls (trace s))
         + match r with
           | post_create_google_pay_payment => 2
           | post_webhook => 0
           | _ => 1
           end)%nat
  /\ (List.length (created_orders (trace (snd (handler rt ext env r req s))))
      <= List.length (created_orders (trace s))
         + match r with
           | post_capture_paypal_payment | post_webhook => 1
           | _ => 0
           end)%nat.
Proof.
  destruct r; run_handler; split_paths; simpl;
    rewrite ?vendor_calls_app, ?created_orders_app, ?validation_runs_app;
    simpl; rewrite ?app_nil_r, ?length_app; simpl; (split; [reflexivity|]); lia.
Qed.

(** X15: when the vendor capture call throws, the capture handler answers
    500 "Failed to capture PayPal payment" with the error's message, and
    [createOrder] is not called. *)
Theorem capture_paypal_payment_vendor_error (req : request) (s : state W)
        (e : js_error) (w1 : W) :
  is_nullish (req_body req) = false ->
  new_OrdersCaptureRequest ext (get_field (req_body req) "orderId") = None ->
  orders_capture ext (get_field (req_body req) "orderId") (world s) = (Throw e, w1) ->
  capture_paypal_payment ext req s =
    (Normal (Json 500 (error_body [("message", VStr "Failed to capture PayPal payment");
                                   ("details", VStr (message e))])),
     mkState w1
       (trace s ++ [Called_orders_capture (get_field (req_body req) "orderId");
                    Logged_error "PayPal payment capture error:" e])).
Proof.
  intros Hb Hn Hc. rewrite (capture_paypal_payment_spec _ _ _ Hb). cbv zeta.
  rewrite Hn, Hc. simpl. rewrite <- app_assoc. reflexivity.
Qed.

(** X16: when the capture is COMPLETED but the request carries no
    [req.user] ([undefined] or [null]), reading the caller's id throws after
    the capture: the payment is captured, no order is handed to
    [createOrder], and the answer is 500 with the TypeError's message. *)
Theorem capture_paypal_payment_without_user (req : request) (s : state W)
        (capture : paypal_result) (w1 : W) :
  is_nullish (req_body req) = false ->
  is_nullish (req_user req) = true ->
  new_OrdersCaptureRequest ext (get_field (req_body req) "orderId") = None ->
  orders_capture ext (get_field (req_body req) "orderId") (world s) = (Normal capture, w1) ->
  result_status capture = "COMPLETED" ->
  capture_paypal_payment ext req s =
    (Normal (Json 500 (error_body
               [("message", VStr "Failed to capture PayPal payment");
                ("details",
                 VStr ("Cannot read properties of "
                         ++ match req_user req with
                            | VNull => "null"
                            | _ => "undefined"
                            end ++ " (reading 'id')"))])),
     mkState w1
       (trace s ++ [Called_orders_capture (get_field (req_body req) "orderId");
                    Logged_error "PayPal payment capture error:"
                      (TypeError
                         ("Cannot read properties of "
                            ++ match req_user req with
                               | VNull => "null"
                               | _ => "undefined"
                               end ++ " (reading 'id')"))])).
Proof.
  intros Hb Hu Hn Hc Hst. rewrite (capture_paypal_payment_spec _ _ _ Hb). cbv zeta.
  rewrite Hn, Hc, Hst. unfold read_prop. rewrite Hu. simpl.
  rewrite <- app_assoc. reflexivity.
Qed.


(** X18: a create-paypal-order request whose body has no amount (or a null
    one) is answered 500 "Failed to create PayPal order" without any vendor
    call: [amount.toString()] throws a TypeError that names the amount as
    undefined or as null. *)
Theorem create_paypal_order_missing_amount (req : request) (s : state W) :
  is_nullish (req_body req) = false ->
  is_nullish (get_field (req_body req) "amount") = true ->
  create_paypal_order rt ext req s =
    (Normal (Json 500 (error_body
               [("message", VStr "Failed to create PayPal order");
                ("details",
                 VStr ("Cannot read properties of "
                         ++ match get_field (req_body req) "amount" with
                            | VNull => "null"
                            | _ => "undefined"
                            end ++ " (reading 'toString')"))])),
     mkState (world s)
       (trace s ++ [Logged_error "PayPal order creation error:"
                      (TypeError
                         ("Cannot read properties of "
                            ++ match get_field (req_body req) "amount" with
                               | VNull => "null"
                               | _ => "undefined"
                               end ++ " (reading 'toString')"))])).
Proof.
  intros Hb Ha. unfold create_paypal_order, try_catch, bind, lift, call_toString.
  rewrite !(destructure_object _ _ Hb), Ha. reflexivity.
Qed.

(** X19: each of the four JSON handlers answers a request without a body
    with 500; the only effect is the error log entry, so no vendor is called
    and no order is created. *)
Theorem handler_missing_body (r : route) (req : request) (s : state W) :
  r <> post_webhook ->
  is_nullish (req_body req) = true ->
  exists b label e,
    handler rt ext env r req s =
      (Normal (Json 500 b), mkState (world s) (trace s ++ [Logged_error label e])).
Proof.
  intros Hr Hb.
  destruct r; try congruence;
    unfold handler, create_payment_intent, create_paypal_order, capture_paypal_payment,
           create_google_pay_payment, try_catch, bind, lift, destructure;
    rewrite Hb; eexists _, _, _; reflexivity.
Qed.

(** *** Routes *)

(** X20: on the four routes that mount [protectRoute], when it answers the
    request itself, that answer is the route's answer: no validation rule is
    run and whatever handler is mounted is not run. *)
Theorem serve_authentication_refused (r : route) (h : request -> M W response)
        (req0 : request) (s0 : state W) (resp : response) (w : W) :
  In use_protectRoute (mounted r) ->
  protectRoute ext req0 (world s0) = (Responded resp, w) ->
  serve_with rt ext env h r req0 s0 = (Normal resp, mkState w (trace s0)).
Proof.
  intros Hin Hp. unfold serve_with.
  destruct r; simpl in Hin;
    try (destruct Hin as [Hin|[]]; discriminate Hin);
    unfold mounted; apply run_stack_responded; simpl; rewrite Hp; reflexivity.
Qed.

(** X21: on a route that mounts the validation middleware, whatever the
    middleware answers is the route's answer; the handler is not run, no
    vendor is called and no order is created. *)
Theorem serve_validation_refused (r : route) (h : request -> M W response)
        (req0 req : request) (s0 s2 : state W) (resp : response) (w : W) :
  In use_validatePayment (mounted r) ->
  protectRoute ext req0 (world s0) = (Next req, w) ->
  validatePayment rt ext env req (mkState w (trace s0)) = (Normal (Responded resp), s2) ->
  serve_with rt ext env h r req0 s0 = (Normal resp, s2)
  /\ vendor_calls (trace s2) = vendor_calls (trace s0)
  /\ created_orders (trace s2) = created_orders (trace s0).
Proof.
  intros Hin Hp Hv. split.
  - unfold serve_with.
    destruct r; simpl in Hin;
      try (destruct Hin as [Hin|[Hin|[]]]; discriminate Hin);
      try (destruct Hin as [Hin|[]]; discriminate Hin);
      unfold mounted;
      (erewrite run_stack_next; [| simpl; rewrite Hp; reflexivity]);
      apply run_stack_responded; exact Hv.
  - destruct (validatePayment_appends req (mkState w (trace s0)))
      as (o & tl & E & Hc & Ho).
    rewrite Hv in E. injection E as _ ->. simpl.
    rewrite vendor_calls_app, created_orders_app, Hc, Ho, !app_nil_r. auto.
Qed.

(** X22: on a route that mounts the validation middleware, a request that
    authentication and validation pass on reaches the route's handler
    unchanged, after every rule of its declared method has run. *)
Theorem serve_validated (r : route) (req0 req : request) (s0 : state W) (w : W)
        (rules : list validation_chain) :
  In use_validatePayment (mounted r) ->
  protectRoute ext req0 (world s0) = (Next req, w) ->
  is_nullish (req_body req) = false ->
  select_rules (get_field (req_body req) "method") = Some rules ->
  collect_errors ext rules (req_body req) = [] ->
  js_le rt (get_field (req_body req) "amount") (Finite 0) = Normal false ->
  js_gt rt (get_field (req_body req) "amount") (Finite (inject_Z 999999)) = Normal false ->
  negb (req_secure req) && strict_eq_str (NODE_ENV env) "production" = false ->
  serve rt ext env r req0 s0 =
    handler rt ext env r req (mkState w (trace s0 ++ map Ran_validation rules)).
Proof.
  intros Hin Hp Hb Hm He Hle Hgt Hs.
  pose proof (validatePayment_in_range rt ext env req (mkState w (trace s0)) rules
                Hb Hm He Hle Hgt) as Hv.
  rewrite Hs in Hv. simpl in Hv.
  unfold serve, serve_with.
  destruct r; simpl in Hin;
    try (destruct Hin as [Hin|[Hin|[]]]; discriminate Hin);
    try (destruct Hin as [Hin|[]]; discriminate Hin);
    unfold mounted;
    (erewrite run_stack_next; [| simpl; rewrite Hp; reflexivity]);
    (erewrite run_stack_next; [| simpl; exact Hv]);
    reflexivity.
Qed.


(** *** Webhook *)

(** X24: when [createOrder] throws on a verified payment_intent.succeeded
    event, the error is logged by the success handler and again by the
    route, and the answer is 500 with the fixed text, not the error's
    message. *)
Theorem webhook_order_creation_fails (req : request) (s : state W) (ev : event)
        (e : js_error) (w' : W) :
  constructEvent ext (req_body req) (header req "stripe-signature")
                 (STRIPE_WEBHOOK_SECRET env) (world s) = Normal ev ->
  ev_type ev = "payment_intent.succeeded" ->
  createOrder ext
    (mkOrder (get_field (VObj (pi_metadata (ev_object ev))) "userId")
             (VStr (pi_id (ev_object ev))) "card" "confirmed") (world s) = (Throw e, w') ->
  webhook ext env req s =
    (Normal (Json 500 (VObj [("error", VStr "Webhook processing failed")])),
     mkState w'
       (trace s ++
          [Called_createOrder
             (mkOrder (get_field (VObj (pi_metadata (ev_object ev))) "userId")
                      (VStr (pi_id (ev_object ev))) "card" "confirmed");
           Logged_error "Error handling successful payment:" e;
           Logged_error "Webhook processing error:" e])).
Proof.
  intros Hv Ht Ho. unfold webhook. rewrite (webhook_verified _ _ _ _ _ _ Hv).
  unfold dispatch. rewrite Ht. simpl. rewrite handleSuccessfulPayment_spec. cbv zeta.
  rewrite Ho. simpl. rewrite <- !app_assoc. reflexivity.
Qed.

(** X25: the webhook route consults neither the authentication middleware
    nor the validator nor a vendor: two deployments that agree on
    [constructEvent] and [createOrder] serve a delivery alike. *)
Theorem serve_webhook_needs_no_authentication (ext' : collaborators W)
        (req : request) (s : state W) :
  constructEvent ext' = constructEvent ext ->
  createOrder ext' = createOrder ext ->
  serve rt ext' env post_webhook req s = serve rt ext env post_webhook req s.
Proof.
  intros Hc Ho. unfold serve, serve_with. simpl.
  unfold bind, ret, webhook, webhook_with. rewrite Hc.
  destruct (constructEvent ext _ _ _ _) as [ev|err]; [|reflexivity].
  unfold try_catch, bind, dispatch, handleSuccessfulPayment, try_catch, call.
  rewrite Ho. reflexivity.
Qed.

(** C3 (amended): in production over an insecure connection the validation
    middleware answers 403 exactly when the request has a body with a known
    method, the field rules report nothing and the amount test passed, so
    only after all of these; when the field rules report a violation it
    answers 400 "Validation error" instead; and it passes no request on. *)
Theorem validatePayment_insecure_production (req : request) (s : state W) :
  NODE_ENV env = VStr "production" ->
  req_secure req = false ->
  (forall b,
      fst (validatePayment rt ext env req s) = Normal (Responded (Json 403 b)) <->
      b = error_body [("message", VStr "Payment must be processed over HTTPS")]
      /\ is_nullish (req_body req) = false
      /\ (exists rules,
            select_rules (get_field (req_body req) "method") = Some rules
            /\ collect_errors ext rules (req_body req) = [])
      /\ js_le rt (get_field (req_body req) "amount") (Finite 0) = Normal false
      /\ js_gt rt (get_field (req_body req) "amount") (Finite (inject_Z 999999))
         = Normal false)
  /\ (forall rules,
        is_nullish (req_body req) = false ->
        select_rules (get_field (req_body req) "method") = Some rules ->
        collect_errors ext rules (req_body req) <> [] ->
        fst (validatePayment rt ext env req s) =
          Normal (Responded (Json 400 (error_body
                     [("message", VStr "Validation error");
                      ("details", VArr (collect_errors ext rules (req_body req)))]))))
  /\ (forall req', fst (validatePayment rt ext env req s) <> Normal (Next req')).
Proof.
  intros Hp Hs. rewrite validatePayment_cases. cbv zeta. unfold destructure.
  rewrite Hs, Hp. simpl negb. simpl andb.
  split; [|split].
  - intros b. split.
    + destruct (is_nullish (req_body req)); [discriminate|].
      destruct (select_rules _) as [rules|] eqn:Hm; [|discriminate].
      destruct (collect_errors ext rules (req_body req)) eqn:He; [|discriminate].
      destruct (js_le rt _ _) as [[|]|e]; try discriminate.
      destruct (js_gt rt _ _) as [[|]|e]; try discriminate.
      simpl. intros H. injection H as <-. repeat split; eauto.
    + intros (-> & Hb & (rules & Hm & He) & Hle & Hgt).
      rewrite Hb, Hm, He, Hle, Hgt. reflexivity.
  - intros rules Hb Hm He. rewrite Hb, Hm.
    destruct (collect_errors ext rules (req_body req)); [congruence | reflexivity].
  - intros req'.
    destruct (is_nullish (req_body req)); [discriminate|].
    destruct (select_rules _) as [rules|]; [|discriminate].
    destruct (collect_errors ext rules (req_body req)); [|discriminate].
    destruct (js_le rt _ _) as [[|]|e]; try discriminate.
    destruct (js_gt rt _ _) as [[|]|e]; discriminate.
Qed.

End Further.

(** *** The log line format *)

Lemma string_app_assoc (a b c : string) : ((a ++ b) ++ c = a ++ (b ++ c))%string.
Proof. induction a as [|x a IH]; simpl; [reflexivity|]. rewrite IH. reflexivity. Qed.

Lemma string_app_nil_r (a : string) : (a ++ "" = a)%string.
Proof. induction a as [|x a IH]; simpl; [reflexivity|]. rewrite IH. reflexivity. Qed.

Lemma lookup_rest_without (named : list string) (props : list (string * value))
      (k : string) :
  In k named -> lookup k (rest_without named props) = None.
Proof.
  intros Hk. unfold rest_without.
  induction props as [|[k' v] props IH]; simpl; [reflexivity|].
  destruct (existsb (String.eqb k') named) eqn:E; simpl; [exact IH|].
  destruct (String.eqb k k') eqn:Ek; [|exact IH].
  apply String.eqb_eq in Ek. subst k'.
  assert (existsb (String.eqb k) named = true) as Habs.
  { apply existsb_exists. exists k. split; [exact Hk | apply String.eqb_refl]. }
  congruence.
Qed.

Section LogFormat.
Variable rt : js_runtime.
Variable JSON_stringify : value -> string.

(** X26: a record that has nothing but level, message and timestamp is
    formatted as "timestamp [level]: message" and nothing else. *)
Theorem paymentFormat_bare_record (info : list (string * value)) (t l m : string) :
  rest_without ["level"; "message"; "timestamp"] info = [] ->
  to_string rt (get_field (VObj info) "timestamp") = Normal t ->
  to_string rt (get_field (VObj info) "level") = Normal l ->
  to_string rt (get_field (VObj info) "message") = Normal m ->
  paymentFormat rt JSON_stringify info = Normal (t ++ " [" ++ l ++ "]: " ++ m).
Proof.
  intros Hr Ht Hl Hm. unfold paymentFormat. rewrite Hr, Ht, Hl, Hm. reflexivity.
Qed.

(** X27: as soon as the record has any other property, the formatted line
    ends with a "Metadata:" line that dumps all the other properties, and
    that dump holds none of level, message and timestamp. *)
Theorem paymentFormat_metadata_dump (info : list (string * value)) (out : string) :
  rest_without ["level"; "message"; "timestamp"] info <> [] ->
  paymentFormat rt JSON_stringify info = Normal out ->
  (exists front,
      out = front ++ newline ++ "Metadata: "
                  ++ JSON_stringify (VObj (rest_without ["level"; "message"; "timestamp"] info)))
  /\ lookup "level" (rest_without ["level"; "message"; "timestamp"] info) = None
  /\ lookup "message" (rest_without ["level"; "message"; "timestamp"] info) = None
  /\ lookup "timestamp" (rest_without ["level"; "message"; "timestamp"] info) = None.
Proof.
  intros Hr Hf. split.
  - unfold paymentFormat in Hf.
    destruct (to_string rt (get_field (VObj info) "timestamp")) as [t|e]; [|discriminate].
    destruct (to_string rt (get_field (VObj info) "level")) as [l|e]; [|discriminate].
    destruct (to_string rt (get_field (VObj info) "message")) as [m|e]; [|discriminate].
    destruct (rest_without ["level"; "message"; "timestamp"] info) as [|kv md] eqn:E;
      [congruence|].
    match type of Hf with
    | match ?c with _ => _ end = _ => destruct c as [msg1|e]; [|discriminate]
    end.
    cbn [List.length Nat.ltb Nat.leb] in Hf.
    injection Hf as <-. eexists. reflexivity.
  - repeat split; apply lookup_rest_without; simpl; auto.
Qed.

(** X28: every formatted line starts with "timestamp [level]: message",
    the three converted to strings. *)
Theorem paymentFormat_prefix (info : list (string * value)) (out : string) :
  paymentFormat rt JSON_stringify info = Normal out ->
  exists t l m tail,
    to_string rt (get_field (VObj info) "timestamp") = Normal t
    /\ to_string rt (get_field (VObj info) "level") = Normal l
    /\ to_string rt (get_field (VObj info) "message") = Normal m
    /\ out = (t ++ " [" ++ l ++ "]: " ++ m) ++ tail.
Proof.
  unfold paymentFormat. intros Hf.
  destruct (to_string rt (get_field (VObj info) "timestamp")) as [t|e]; [|discriminate].
  destruct (to_string rt (get_field (VObj info) "level")) as [l|e]; [|discriminate].
  destruct (to_string rt (get_field (VObj info) "message")) as [m|e]; [|discriminate].
  exists t, l, m.
  set (msg := t ++ " [" ++ l ++ "]: " ++ m) in *.
  set (md := rest_without ["level"; "message"; "timestamp"] info) in *.
  destruct (to_boolean (get_field (VObj md) "paymentId")).
  - destruct (to_string rt (get_field (VObj md) "paymentId")) as [pid|e]; [|discriminate].
    destruct (to_boolean (get_field (VObj md) "error"));
      destruct (0 <? List.length md)%nat; injection Hf as <-;
      eexists; (split; [reflexivity|]); (split; [reflexivity|]); (split; [reflexivity|]);
      rewrite ?string_app_assoc; reflexivity.
  - destruct (to_boolean (get_field (VObj md) "error"));
      destruct (0 <? List.length md)%nat; injection Hf as <-;
      eexists; (split; [reflexivity|]); (split; [reflexivity|]); (split; [reflexivity|]);
      rewrite ?string_app_assoc; try reflexivity.
    symmetry. apply string_app_nil_r.
Qed.

End LogFormat.

(** * The further properties on the concrete deployments *)

Lemma validatePayment_passes_iff_witness :
  fst (validatePayment Demo.runtime Demo.collab Demo.production Demo.card_request Demo.all_up)
    = Normal (Next Demo.card_request).
Proof.
  apply (proj2 (validatePayment_passes_iff Demo.runtime Demo.collab Demo.production
                  Demo.card_request Demo.card_request Demo.all_up)).
  split; [reflexivity|]. split; [reflexivity|].
  split; [exists stripePaymentRules; split; reflexivity|].
  split; [reflexivity|]. split; reflexivity.
Defined.

Lemma validatePayment_missing_body_witness :
  is_nullish (req_body Cases.no_body_request) = true
  /\ is_nullish (req_body Cases.null_body_request) = true
  /\ fst (validatePayment Demo.runtime Demo.collab Demo.production
            Cases.no_body_request Demo.all_up)
     = Normal (Responded (Json 500 (error_body
                 [("message", VStr "Payment validation failed");
                  ("details", VStr "Cannot destructure property 'method' of 'req.body' as it is undefined.")])))
  /\ fst (validatePayment Demo.runtime Demo.collab Demo.production
            Cases.null_body_request Demo.all_up)
     = Normal (Responded (Json 500 (error_body
                 [("message", VStr "Payment validation failed");
                  ("details", VStr "Cannot destructure property 'method' of 'req.body' as it is null.")]))).
Proof.
  split; [reflexivity|]. split; [reflexivity|]. split.
  - exact (f_equal fst
             (validatePayment_missing_body Demo.runtime Demo.collab Demo.production
                Cases.no_body_request Demo.all_up eq_refl)).
  - exact (f_equal fst
             (validatePayment_missing_body Demo.runtime Demo.collab Demo.production
                Cases.null_body_request Demo.all_up eq_refl)).
Defined.

Lemma validatePayment_runs_every_rule_witness :
  select_rules (get_field (req_body Demo.insecure_incomplete_request) "method")
    = Some stripePaymentRules
  /\ validation_runs
       (trace (snd (validatePayment Demo.runtime Demo.collab Demo.production
                      Demo.insecure_incomplete_request Demo.all_up)))
     = map Ran_validation stripePaymentRules.
Proof.
  split; [reflexivity|].
  exact (proj1 (validatePayment_runs_every_rule Demo.runtime Demo.collab Demo.production
                  Demo.insecure_incomplete_request Demo.all_up stripePaymentRules
                  eq_refl eq_refl)).
Defined.

Lemma validatePayment_403_only_insecure_production_witness :
  fst (validatePayment Demo.runtime Demo.collab Demo.production
         Demo.insecure_card_request Demo.all_up)
    = Normal (Responded (Json 403 (error_body
                [("message", VStr "Payment must be processed over HTTPS")])))
  /\ req_secure Demo.insecure_card_request = false
  /\ NODE_ENV Demo.production = VStr "production".
Proof.
  split; [reflexivity|].
  destruct (validatePayment_403_only_insecure_production Demo.runtime Demo.collab
              Demo.production Demo.insecure_card_request Demo.all_up
              (error_body [("message", VStr "Payment must be processed over HTTPS")])
              eq_refl) as (Hs & Hp & _).
  exact (conj Hs Hp).
Defined.

Lemma validatePayment_passed_amount_bounds_witness :
  get_field (req_body Cases.max_amount_request) "amount" = VNum (Finite (inject_Z 999999))
  /\ get_field (req_body Demo.zero_amount_request) "amount" = VNum (Finite 0)
  /\ fst (validatePayment Demo.runtime Demo.collab Demo.production
            Cases.max_amount_request Demo.all_up)
     = Normal (Next Cases.max_amount_request)
  /\ fst (validatePayment Demo.runtime Demo.collab Demo.production
            Demo.zero_amount_request Demo.all_up)
     = Normal (Responded (Json 400 (error_body
                 [("message", VStr "Invalid amount");
                  ("details", VStr "Amount must be between 0 and 999,999")]))).
Proof.
  split; [reflexivity|]. split; [reflexivity|]. split.
  - refine (f_equal fst
              (proj1 (proj2 (validatePayment_passed_amount_bounds Demo.runtime Demo.collab
                               Demo.production Cases.max_amount_request Demo.all_up
                               (inject_Z 999999) eq_refl)
                            paypalPaymentRules eq_refl eq_refl) _)).
    split; [reflexivity | discriminate].
  - refine (f_equal fst
              (proj2 (proj2 (validatePayment_passed_amount_bounds Demo.runtime Demo.collab
                               Demo.production Demo.zero_amount_request Demo.all_up
                               0%Q eq_refl)
                            paypalPaymentRules eq_refl eq_refl) _)).
    intros [H _]. discriminate H.
Defined.

Lemma validatePayment_nan_amount_not_refused_witness :
  to_number Demo.runtime (get_field (req_body Cases.no_amount_request) "amount") = Normal NaN
  /\ fst (validatePayment Demo.runtime Cases.collab_lenient Demo.production
            Cases.no_amount_request Demo.all_up)
     = Normal (Next Cases.no_amount_request).
Proof.
  split; [reflexivity|].
  exact (f_equal fst
           (validatePayment_nan_amount_not_refused Demo.runtime Cases.collab_lenient
              Demo.production Cases.no_amount_request Demo.all_up paypalPaymentRules
              eq_refl eq_refl eq_refl eq_refl)).
Defined.

Lemma create_google_pay_payment_success_witness :
  is_nullish (get_field (req_body Cases.google_pay_request) "paymentData") = false
  /\ fst (create_google_pay_payment Demo.collab Demo.production
            Cases.google_pay_request Demo.all_up)
     = Normal (Json 200 (VObj [("success", VBool true); ("paymentIntentId", VStr "pi_1")])).
Proof.
  split; [reflexivity|].
  exact (f_equal fst
           (create_google_pay_payment_success Demo.collab Demo.production
              Cases.google_pay_request Demo.all_up (mkPaymentMethod "pm_1") Demo.intent_1
              (world Demo.all_up) (world Demo.all_up) eq_refl eq_refl eq_refl eq_refl)).
Defined.

Lemma create_google_pay_payment_intent_refused_witness :
  paymentMethods_create Cases.collab_declining
    (mkMethodParams "card" (VStr "tok_gpay")) (world Demo.all_up)
    = (Normal (mkPaymentMethod "pm_1"), world Demo.all_up)
  /\ vendor_calls
       (trace (snd (create_google_pay_payment Cases.collab_declining Demo.production
                      Cases.google_pay_request Demo.all_up)))
     = [Called_paymentMethods_create (mkMethodParams "card" (VStr "tok_gpay"));
        Called_paymentIntents_create
          (mkIntentParams (VNum (Finite (inject_Z 500))) (VStr "usd") (VStr "pm_1") true
             "https://shop.example/payment/confirm")].
Proof.
  split; [reflexivity|].
  rewrite (create_google_pay_payment_intent_refused Cases.collab_declining Demo.production
             Cases.google_pay_request Demo.all_up (mkPaymentMethod "pm_1") Demo.declined
             (world Demo.all_up) (world Demo.all_up) eq_refl eq_refl eq_refl eq_refl).
  reflexivity.
Defined.

Lemma create_google_pay_payment_method_refused_witness :
  paymentMethods_create Demo.collab
    (mkMethodParams "card" (VStr "tok_gpay")) (world Demo.vendor_down)
    = (Throw Demo.declined, world Demo.vendor_down)
  /\ vendor_calls
       (trace (snd (create_google_pay_payment Demo.collab Demo.production
                      Cases.google_pay_request Demo.vendor_down)))
     = [Called_paymentMethods_create (mkMethodParams "card" (VStr "tok_gpay"))].
Proof.
  split; [reflexivity|].
  rewrite (create_google_pay_payment_method_refused Demo.collab Demo.production
             Cases.google_pay_request Demo.vendor_down Demo.declined
             (world Demo.vendor_down) eq_refl eq_refl eq_refl).
  reflexivity.
Defined.

Lemma create_google_pay_payment_no_payment_data_witness :
  is_nullish (get_field (req_body Cases.google_pay_no_data) "paymentData") = true
  /\ is_nullish (get_field (req_body Cases.google_pay_null_data) "paymentData") = true
  /\ create_google_pay_payment Demo.collab Demo.production Cases.google_pay_no_data
       Demo.all_up
     = (Normal (Json 500 (error_body
                  [("message", VStr "Failed to process Google Pay payment");
                   ("details", VStr "Cannot read properties of undefined (reading 'token')")])),
        mkState (world Demo.all_up)
          [Logged_error "Google Pay payment error:"
             (TypeError "Cannot read properties of undefined (reading 'token')")])
  /\ fst (create_google_pay_payment Demo.collab Demo.production Cases.google_pay_null_data
            Demo.all_up)
     = Normal (Json 500 (error_body
                 [("message", VStr "Failed to process Google Pay payment");
                  ("details", VStr "Cannot read properties of null (reading 'token')")])).
Proof.
  split; [reflexivity|]. split; [reflexivity|]. split.
  - exact (create_google_pay_payment_no_payment_data Demo.collab Demo.production
             Cases.google_pay_no_data Demo.all_up eq_refl eq_refl).
  - exact (f_equal fst
             (create_google_pay_payment_no_payment_data Demo.collab Demo.production
                Cases.google_pay_null_data Demo.all_up eq_refl eq_refl)).
Defined.

Lemma capture_paypal_payment_vendor_error_witness :
  orders_capture Demo.collab (get_field (req_body Demo.capture_request) "orderId")
    (world Demo.vendor_down) = (Throw (Error "RESOURCE_NOT_FOUND"), world Demo.vendor_down)
  /\ fst (capture_paypal_payment Demo.collab Demo.capture_request Demo.vendor_down)
     = Normal (Json 500 (error_body [("message", VStr "Failed to capture PayPal payment");
                                     ("details", VStr "RESOURCE_NOT_FOUND")])).
Proof.
  split; [reflexivity|].
  exact (f_equal fst
           (capture_paypal_payment_vendor_error Demo.collab Demo.capture_request
              Demo.vendor_down (Error "RESOURCE_NOT_FOUND") (world Demo.vendor_down)
              eq_refl eq_refl eq_refl)).
Defined.

Lemma capture_paypal_payment_without_user_witness :
  is_nullish (req_user Cases.anonymous_capture) = true
  /\ is_nullish (req_user Cases.null_user_capture) = true
  /\ capture_paypal_payment Demo.collab Cases.anonymous_capture Demo.all_up
     = (Normal (Json 500 (error_body
                  [("message", VStr "Failed to capture PayPal payment");
                   ("details", VStr "Cannot read properties of undefined (reading 'id')")])),
        mkState (world Demo.all_up)
          [Called_orders_capture (VStr "ORDER-1");
           Logged_error "PayPal payment capture error:"
             (TypeError "Cannot read properties of undefined (reading 'id')")])
  /\ fst (capture_paypal_payment Demo.collab Cases.null_user_capture Demo.all_up)
     = Normal (Json 500 (error_body
                 [("message", VStr "Failed to capture PayPal payment");
                  ("details", VStr "Cannot read properties of null (reading 'id')")])).
Proof.
  split; [reflexivity|]. split; [reflexivity|]. split.
  - exact (capture_paypal_payment_without_user Demo.collab Cases.anonymous_capture
             Demo.all_up (mkPaypalResult "ORDER-1" "COMPLETED") (world Demo.all_up)
             eq_refl eq_refl eq_refl eq_refl eq_refl).
  - exact (f_equal fst
             (capture_paypal_payment_without_user Demo.collab Cases.null_user_capture
                Demo.all_up (mkPaypalResult "ORDER-1" "COMPLETED") (world Demo.all_up)
                eq_refl eq_refl eq_refl eq_refl eq_refl)).
Defined.


Lemma create_paypal_order_missing_amount_witness :
  is_nullish (get_field (req_body Cases.no_amount_request) "amount") = true
  /\ is_nullish (get_field (req_body Cases.null_amount_request) "amount") = true
  /\ create_paypal_order Demo.runtime Demo.collab Cases.no_amount_request Demo.all_up
     = (Normal (Json 500 (error_body
                  [("message", VStr "Failed to create PayPal order");
                   ("details", VStr "Cannot read properties of undefined (reading 'toString')")])),
        mkState (world Demo.all_up)
          [Logged_error "PayPal order creation error:"
             (TypeError "Cannot read properties of undefined (reading 'toString')")])
  /\ fst (create_paypal_order Demo.runtime Demo.collab Cases.null_amount_request Demo.all_up)
     = Normal (Json 500 (error_body
                 [("message", VStr "Failed to create PayPal order");
                  ("details", VStr "Cannot read properties of null (reading 'toString')")])).
Proof.
  split; [reflexivity|]. split; [reflexivity|]. split.
  - exact (create_paypal_order_missing_amount Demo.runtime Demo.collab
             Cases.no_amount_request Demo.all_up eq_refl eq_refl).
  - exact (f_equal fst
             (create_paypal_order_missing_amount Demo.runtime Demo.collab
                Cases.null_amount_request Demo.all_up eq_refl eq_refl)).
Defined.

Lemma handler_missing_body_witness :
  is_nullish (req_body Cases.no_body_request) = true
  /\ exists b label e,
      handler Demo.runtime Demo.collab Demo.production post_create_payment_intent
        Cases.no_body_request Demo.all_up
      = (Normal (Json 500 b),
         mkState (world Demo.all_up) (trace Demo.all_up ++ [Logged_error label e])).
Proof.
  split; [reflexivity|].
  apply (handler_missing_body Demo.runtime Demo.collab Demo.production
           post_create_payment_intent Cases.no_body_request Demo.all_up);
    [discriminate | reflexivity].
Defined.

Lemma serve_authentication_refused_witness :
  protectRoute Cases.collab_locked Demo.capture_request (world Demo.all_up)
    = (Responded (Json 401 (error_body [("message", VStr "Not authorized")])),
       world Demo.all_up)
  /\ serve Demo.runtime Cases.collab_locked Demo.production post_capture_paypal_payment
       Demo.capture_request Demo.all_up
     = (Normal (Json 401 (error_body [("message", VStr "Not authorized")])), Demo.all_up).
Proof.
  split; [reflexivity|].
  apply (serve_authentication_refused Demo.runtime Cases.collab_locked Demo.production
           post_capture_paypal_payment
           (handler Demo.runtime Cases.collab_locked Demo.production
                    post_capture_paypal_payment)
           Demo.capture_request Demo.all_up
           (Json 401 (error_body [("message", VStr "Not authorized")]))
           (world Demo.all_up));
    [simpl; auto | reflexivity].
Defined.

Lemma serve_validation_refused_witness :
  protectRoute Demo.collab Demo.zero_amount_request (world Demo.all_up)
    = (Next Demo.zero_amount_request, world Demo.all_up)
  /\ vendor_calls
       (trace (snd (validatePayment Demo.runtime Demo.collab Demo.production
                      Demo.zero_amount_request Demo.all_up)))
     = vendor_calls (trace Demo.all_up).
Proof.
  split; [reflexivity|].
  refine (proj1 (proj2 (serve_validation_refused Demo.runtime Demo.collab Demo.production
                          post_create_paypal_order
                          (handler Demo.runtime Demo.collab Demo.production
                                   post_create_paypal_order)
                          Demo.zero_amount_request Demo.zero_amount_request Demo.all_up
                          (snd (validatePayment Demo.runtime Demo.collab Demo.production
                                  Demo.zero_amount_request Demo.all_up))
                          (Json 400 (error_body
                             [("message", VStr "Invalid amount");
                              ("details", VStr "Amount must be between 0 and 999,999")]))
                          (world Demo.all_up) _ eq_refl eq_refl))).
  simpl. auto.
Defined.

Lemma serve_validated_witness :
  protectRoute Demo.collab Demo.card_request (world Demo.all_up)
    = (Next Demo.card_request, world Demo.all_up)
  /\ serve Demo.runtime Demo.collab Demo.production post_create_payment_intent
       Demo.card_request Demo.all_up
     = handler Demo.runtime Demo.collab Demo.production post_create_payment_intent
         Demo.card_request
         (mkState (world Demo.all_up)
                  (trace Demo.all_up ++ map Ran_validation stripePaymentRules)).
Proof.
  split; [reflexivity|].
  apply (serve_validated Demo.runtime Demo.collab Demo.production
           post_create_payment_intent Demo.card_request Demo.card_request Demo.all_up
           (world Demo.all_up) stripePaymentRules);
    solve [reflexivity | simpl; auto].
Defined.


Lemma webhook_order_creation_fails_witness :
  createOrder Demo.collab (mkOrder (VStr "user_7") (VStr "pi_1") "card" "confirmed")
    (world Demo.store_down)
    = (Throw (Error "order store unavailable"), world Demo.store_down)
  /\ fst (webhook Demo.collab Demo.production Demo.succeeded_delivery Demo.store_down)
     = Normal (Json 500 (VObj [("error", VStr "Webhook processing failed")])).
Proof.
  split; [reflexivity|].
  exact (f_equal fst
           (webhook_order_creation_fails Demo.collab Demo.production
              Demo.succeeded_delivery Demo.store_down
              (mkEvent "payment_intent.succeeded" Demo.intent_1)
              (Error "order store unavailable") (world Demo.store_down)
              eq_refl eq_refl eq_refl)).
Defined.

Lemma serve_webhook_needs_no_authentication_witness :
  fst (protectRoute Cases.collab_locked Demo.succeeded_delivery (world Demo.all_up))
    = Responded (Json 401 (error_body [("message", VStr "Not authorized")]))
  /\ serve Demo.runtime Cases.collab_locked Demo.production post_webhook
       Demo.succeeded_delivery Demo.all_up
     = serve Demo.runtime Demo.collab Demo.production post_webhook
         Demo.succeeded_delivery Demo.all_up.
Proof.
  split; [reflexivity|].
  exact (serve_webhook_needs_no_authentication Demo.runtime Demo.collab Demo.production
           Cases.collab_locked Demo.succeeded_delivery Demo.all_up eq_refl eq_refl).
Defined.

Lemma paymentFormat_bare_record_witness :
  rest_without ["level"; "message"; "timestamp"] Cases.bare_record = []
  /\ paymentFormat Demo.runtime Cases.show_keys Cases.bare_record
     = Normal "2024-01-01T00:00:00.000Z [info]: started".
Proof.
  split; [reflexivity|].
  exact (paymentFormat_bare_record Demo.runtime Cases.show_keys Cases.bare_record
           "2024-01-01T00:00:00.000Z" "info" "started" eq_refl eq_refl eq_refl eq_refl).
Defined.

Lemma paymentFormat_metadata_dump_witness :
  rest_without ["level"; "message"; "timestamp"] Cases.payment_record <> []
  /\ exists front,
      (front ++ newline ++ "Metadata: {paymentId,service}")%string
      = (("2024-01-01T00:00:00.000Z [error]: Payment failed: [Payment ID: pi_1]"
            ++ newline ++ "Metadata: {paymentId,service}")%string).
Proof.
  split; [discriminate|].
  destruct (proj1 (paymentFormat_metadata_dump Demo.runtime Cases.show_keys
                     Cases.payment_record
                     ("2024-01-01T00:00:00.000Z [error]: Payment failed: [Payment ID: pi_1]"
                        ++ newline ++ "Metadata: {paymentId,service}")
                     ltac:(discriminate) eq_refl)) as [front Hf].
  exists front. symmetry. exact Hf.
Defined.

Lemma paymentFormat_prefix_witness :
  exists tail,
    (("2024-01-01T00:00:00.000Z [error]: Payment failed: [Payment ID: pi_1]"
        ++ newline ++ "Metadata: {paymentId,service}")%string)
    = (("2024-01-01T00:00:00.000Z" ++ " [" ++ "error" ++ "]: " ++ "Payment failed:")
         ++ tail)%string.
Proof.
  destruct (paymentFormat_prefix Demo.runtime Cases.show_keys Cases.payment_record
              ("2024-01-01T00:00:00.000Z [error]: Payment failed: [Payment ID: pi_1]"
                 ++ newline ++ "Metadata: {paymentId,service}") eq_refl)
    as (t & l & m & tail & Ht & Hl & Hm & Ho).
  injection Ht as <-. injection Hl as <-. injection Hm as <-.
  exists tail. exact Ho.
Defined.

Lemma validatePayment_insecure_production_witness :
  NODE_ENV Demo.production = VStr "production"
  /\ req_secure Demo.insecure_card_request = false
  /\ fst (validatePayment Demo.runtime Demo.collab Demo.production
            Demo.insecure_card_request Demo.all_up)
     = Normal (Responded (Json 403 (error_body
                 [("message", VStr "Payment must be processed over HTTPS")])))
  /\ fst (validatePayment Demo.runtime Demo.collab Demo.production
            Demo.insecure_incomplete_request Demo.all_up)
     <> Normal (Responded (Json 403 (error_body
                  [("message", VStr "Payment must be processed over HTTPS")]))).
Proof.
  split; [reflexivity|]. split; [reflexivity|]. split.
  - apply (proj1 (validatePayment_insecure_production Demo.runtime Demo.collab
                    Demo.production Demo.insecure_card_request Demo.all_up
                    eq_refl eq_refl)).
    split; [reflexivity|]. split; [reflexivity|].
    split; [exists stripePaymentRules; split; reflexivity|].
    split; reflexivity.
  - intros H.
    destruct (proj1 (proj1 (validatePayment_insecure_production Demo.runtime Demo.collab
                              Demo.production Demo.insecure_incomplete_request Demo.all_up
                              eq_refl eq_refl) _) H)
      as (_ & _ & (rules & Hm & He) & _).
    injection Hm as <-. discriminate He.
Defined.
